(** * vnrs: the Python CTA strategy template and the backtest properties

    Shallow embedding of [examples/strategy_example.py] (classes
    [CtaTemplate], [DoubleMaStrategy], [GridStrategy]), followed by a model
    of the backtest engine and of its Sharpe ratio, and by the properties
    of all three.

    - Python [float] is IEEE binary64: Rocq's primitive [float].
    - Python [dict] with [str] keys: stdpp's [gmap string _].
    - A method is a computation over the receiver [self] and the outside
      world (standard output and the wall clock) that either raises or
      returns: the monad [M] below. *)

From Stdlib Require Import PrimFloat FloatOps SpecFloat FloatAxioms ZArith.
From stdpp Require Import gmap strings list pretty.

(** ** The Python runtime the strategy code relies on *)

(** The only exception the embedded code can raise: a failed [d[key]]. *)
Inductive exn : Type :=
| KeyError (key : string).

(** Standard output (one entry per [print] call) and the wall clock, an
    oracle consumed one reading per [datetime.now()]. *)
Record World : Type := mkWorld {
  stdout : list string;
  clock : nat → float;
  clock_reads : nat
}.

Definition M (S A : Type) : Type := S → World → exn + (A * S * World).

Section Runtime.
Context {S : Type}.

Definition ret {A : Type} (a : A) : M S A :=
  λ self w, inr (a, self, w).

Definition bind {A B : Type} (m : M S A) (k : A → M S B) : M S B :=
  λ self w,
    match m self w with
    | inl e => inl e
    | inr (a, self', w') => k a self' w'
    end.

Definition raise {A : Type} (e : exn) : M S A :=
  λ _ _, inl e.

(** Reading [self], and assigning to an attribute of [self]. *)
Definition get_self : M S S :=
  λ self w, inr (self, self, w).

Definition set_self (f : S → S) : M S unit :=
  λ self w, inr (tt, f self, w).

(** [print(line)] *)
Definition print (line : string) : M S unit :=
  λ self w,
    inr (tt, self,
         {| stdout := stdout w ++ [line];
            clock := clock w;
            clock_reads := clock_reads w |}).

(** [datetime.now().timestamp()] *)
Definition datetime_now_timestamp : M S float :=
  λ self w,
    inr (clock w (clock_reads w), self,
         {| stdout := stdout w;
            clock := clock w;
            clock_reads := Datatypes.S (clock_reads w) |}).
End Runtime.

#[global] Instance M_ret {S : Type} : MRet (M S) := λ A, @ret S A.
#[global] Instance M_bind {S : Type} : MBind (M S) := λ A B k m, @bind S A B m k.

(** A subclass object holds the base-class part; an inherited method runs
    on that part. *)
Definition inherited {S B A : Type} (base : S → B) (set_base : B → S → S)
    (m : M B A) : M S A :=
  λ self w,
    match m (base self) w with
    | inl e => inl e
    | inr (a, b', w') => inr (a, set_base b' self, w')
    end.

(** ** More of the runtime: arithmetic that can raise, loops

    The handlers of the concrete strategies divide and multiply floats by
    integers, which raises on a zero divisor and on an integer too large
    for a float. *)

Inductive pyexn : Type :=
| Raised (e : exn)
| ZeroDivisionError
| OverflowError.

Definition MX (S A : Type) : Type := S → World → pyexn + (A * S * World).

#[global] Instance MX_ret {S : Type} : MRet (MX S) :=
  λ A a self w, inr (a, self, w).

#[global] Instance MX_bind {S : Type} : MBind (MX S) :=
  λ A B k m self w,
    match m self w with
    | inl e => inl e
    | inr (a, self', w') => k a self' w'
    end.

(** A method of the first kind used where the second kind is expected. *)
Definition liftx {S A : Type} (m : M S A) : MX S A :=
  λ self w,
    match m self w with
    | inl e => inl (Raised e)
    | inr r => inr r
    end.

(** The outcome of an arithmetic operation, raised or returned. *)
Definition outcome {S A : Type} (r : pyexn + A) : MX S A :=
  λ self w,
    match r with
    | inl e => inl e
    | inr a => inr (a, self, w)
    end.

(** [for x in l: body(x)] *)
Fixpoint for_each {S A : Type} (l : list A) (body : A → MX S unit) : MX S unit :=
  match l with
  | [] => mret tt
  | x :: rest => body x;; for_each rest body
  end.

(** [range(start, stop)] *)
Definition py_range (start stop : Z) : list Z :=
  seqZ start (stop - start).

(** [l[-n:]]: the last [n] items for a positive [n], the whole list for
    zero, and [l[k:]] for [n = -k] negative. *)
Definition slice_last {A : Type} (n : Z) (l : list A) : list A :=
  if (0 <? n)%Z then drop (Z.to_nat (Z.of_nat (length l) - n)) l
  else drop (Z.to_nat (- n)) l.

(** The conversion of an [int] operand to [float]: correctly rounded, and
    an [OverflowError] (here [None]) beyond the largest float. *)
Definition float_of_int (n : Z) : option float :=
  let f := SF2Prim (binary_normalize prec emax n 0 false) in
  if is_infinity f then None else Some f.

(** [x / n] for a float [x] and an int [n] *)
Definition float_truediv_int (x : float) (n : Z) : pyexn + float :=
  match float_of_int n with
  | None => inl OverflowError
  | Some d => if PrimFloat.eqb d 0 then inl ZeroDivisionError else inr (x / d)%float
  end.

(** [n * x] for an int [n] and a float [x] *)
Definition int_mul_float (n : Z) (x : float) : pyexn + float :=
  match float_of_int n with
  | None => inl OverflowError
  | Some f => inr (f * x)%float
  end.

(** [sum(xs) / n] for floats [xs] and an int [n]. The sum of no items is
    the int [0], divided as an int; the sum of floats is left to
    [float_sum], whose rounding depends on the interpreter. *)
Definition sum_truediv (float_sum : list float → float) (xs : list float)
    (n : Z) : pyexn + float :=
  match xs with
  | [] =>
      if (n =? 0)%Z then inl ZeroDivisionError
      else inr (if (n <? 0)%Z then (-0)%float else 0%float)
  | _ :: _ => float_truediv_int (float_sum xs) n
  end.

(** ** The dictionaries handed to the callbacks (keys as documented) *)

Module Tick.
Record t : Type := mk {
  symbol : string;
  exchange : string;
  datetime : Z;
  last_price : float;
  volume : float;
  bid_price_1 : float;
  ask_price_1 : float
}.
End Tick.

Module Bar.
Record t : Type := mk {
  symbol : string;
  exchange : string;
  datetime : Z;
  interval : string;
  open : float;
  high : float;
  low : float;
  close : float;
  volume : float
}.
End Bar.

Module Order.
Record t : Type := mk {
  orderid : string;
  symbol : string;
  direction : string;
  offset : string;
  price : float;
  volume : float;
  traded : float;
  status : string
}.
End Order.

(** [on_trade] reads the key ['exchange'] besides the documented ones. *)
Module Trade.
Record t : Type := mk {
  tradeid : string;
  orderid : string;
  symbol : string;
  exchange : string;
  direction : string;
  offset : string;
  price : float;
  volume : float;
  datetime : Z
}.
End Trade.

(** Values of the open-ended [parameters] / [variables] dictionaries. *)
Inductive pyvalue : Type :=
| PyInt (n : Z)
| PyFloat (x : float).

(** ** class CtaTemplate *)

Module CtaTemplate.

Record t : Type := mk {
  strategy_name : string;
  vt_symbols : list string;
  strategy_type : string;
  inited : bool;
  trading : bool;
  positions : gmap string float;
  parameters : gmap string pyvalue;
  variables : gmap string pyvalue
}.

Definition set_inited (b : bool) (self : t) : t :=
  mk (strategy_name self) (vt_symbols self) (strategy_type self)
     b (trading self) (positions self) (parameters self) (variables self).

Definition set_trading (b : bool) (self : t) : t :=
  mk (strategy_name self) (vt_symbols self) (strategy_type self)
     (inited self) b (positions self) (parameters self) (variables self).

Definition set_positions (p : gmap string float) (self : t) : t :=
  mk (strategy_name self) (vt_symbols self) (strategy_type self)
     (inited self) (trading self) p (parameters self) (variables self).

Definition set_parameters (p : gmap string pyvalue) (self : t) : t :=
  mk (strategy_name self) (vt_symbols self) (strategy_type self)
     (inited self) (trading self) (positions self) p (variables self).

Definition set_variables (v : gmap string pyvalue) (self : t) : t :=
  mk (strategy_name self) (vt_symbols self) (strategy_type self)
     (inited self) (trading self) (positions self) (parameters self) v.

(** [__init__]: the loop [for symbol in vt_symbols: positions[symbol] = 0.0]
    is the left fold. *)
Definition __init__ (strategy_name : string) (vt_symbols : list string)
    (strategy_type : string) : t :=
  mk strategy_name vt_symbols strategy_type
     false false
     (foldl (λ positions symbol, <[symbol := 0%float]> positions) ∅ vt_symbols)
     ∅ ∅.

Definition write_log (msg : string) : M t unit :=
  self ← get_self;
  print ("[" +:+ strategy_name self +:+ "] " +:+ msg).

Definition on_init : M t unit :=
  write_log "Strategy initialized".

Definition on_start : M t unit :=
  write_log "Strategy started".

Definition on_stop : M t unit :=
  write_log "Strategy stopped".

Definition on_tick (tick : Tick.t) : M t unit :=
  mret tt.

Definition on_bar (bar : Bar.t) : M t unit :=
  mret tt.

Definition on_bars (bars : gmap string Bar.t) : M t unit :=
  mret tt.

Definition on_order (order : Order.t) : M t unit :=
  mret tt.

(** [self.positions[key]], [self.positions[key] = value] and the two
    augmented assignments built from them. *)
Definition positions_getitem (key : string) : M t float :=
  self ← get_self;
  match positions self !! key with
  | Some x => mret x
  | None => raise (KeyError key)
  end.

Definition positions_setitem (key : string) (value : float) : M t unit :=
  set_self (λ self, set_positions (<[key := value]> (positions self)) self).

Definition positions_iadd (key : string) (value : float) : M t unit :=
  x ← positions_getitem key;
  positions_setitem key (x + value)%float.

Definition positions_isub (key : string) (value : float) : M t unit :=
  x ← positions_getitem key;
  positions_setitem key (x - value)%float.

Definition on_trade (trade : Trade.t) : M t unit :=
  let vt_symbol := Trade.symbol trade +:+ "." +:+ Trade.exchange trade in
  if String.eqb (Trade.direction trade) "long" then
    if String.eqb (Trade.offset trade) "open" then
      positions_iadd vt_symbol (Trade.volume trade)
    else
      positions_isub vt_symbol (Trade.volume trade)
  else
    if String.eqb (Trade.offset trade) "open" then
      positions_isub vt_symbol (Trade.volume trade)
    else
      positions_iadd vt_symbol (Trade.volume trade).

Definition cancel_order (vt_orderid : string) : M t unit :=
  self ← get_self;
  if negb (trading self) then mret tt
  else write_log ("Cancel order: " +:+ vt_orderid).

Definition cancel_all : M t unit :=
  self ← get_self;
  if negb (trading self) then mret tt
  else write_log "Cancel all orders".

Definition get_pos (vt_symbol : string) : M t float :=
  self ← get_self;
  mret (default 0%float (positions self !! vt_symbol)).

Definition load_bars (days : Z) (interval : string) : M t unit :=
  write_log ("Loading " +:+ pretty days +:+ " days of " +:+ interval +:+ " bars").

Definition put_event : M t unit :=
  mret tt.

Section Orders.
(** [str] of a float inside an f-string. *)
Variable float_str : float → string.

Definition _send_order (vt_symbol : string) (price volume : float)
    (direction offset : string) (lock : bool) : M t string :=
  write_log ("Send order: " +:+ vt_symbol +:+ " " +:+ direction +:+ " "
             +:+ offset +:+ " @ " +:+ float_str price
             +:+ " x" +:+ float_str volume);;
  now ← datetime_now_timestamp;
  mret ("order_" +:+ float_str now).

Definition buy (vt_symbol : string) (price volume : float) (lock : bool)
    : M t string :=
  self ← get_self;
  if negb (trading self) then mret ""
  else _send_order vt_symbol price volume "long" "open" lock.

Definition sell (vt_symbol : string) (price volume : float) (lock : bool)
    : M t string :=
  self ← get_self;
  if negb (trading self) then mret ""
  else
    let offset :=
      if String.eqb (strategy_type self) "futures" then "close" else "open" in
    _send_order vt_symbol price volume "short" offset lock.

Definition short (vt_symbol : string) (price volume : float) (lock : bool)
    : M t string :=
  self ← get_self;
  if String.eqb (strategy_type self) "spot" then
    write_log "Short not supported for spot trading";;
    mret ""
  else if negb (trading self) then mret ""
  else _send_order vt_symbol price volume "short" "open" lock.

Definition cover (vt_symbol : string) (price volume : float) (lock : bool)
    : M t string :=
  self ← get_self;
  if String.eqb (strategy_type self) "spot" then
    write_log "Cover not supported for spot trading";;
    mret ""
  else if negb (trading self) then mret ""
  else _send_order vt_symbol price volume "long" "close" lock.
End Orders.

End CtaTemplate.

(** ** class DoubleMaStrategy(CtaTemplate) *)

Module DoubleMaStrategy.

Record t : Type := mk {
  base : CtaTemplate.t;
  fast_window : Z;
  slow_window : Z;
  fixed_size : float;
  fast_ma : float;
  slow_ma : float;
  ma_trend : Z;
  bars : list Bar.t
}.

Definition set_base (b : CtaTemplate.t) (self : t) : t :=
  mk b (fast_window self) (slow_window self) (fixed_size self)
     (fast_ma self) (slow_ma self) (ma_trend self) (bars self).

Definition super {A : Type} (m : M CtaTemplate.t A) : M t A :=
  inherited base set_base m.

Definition __init__ (strategy_name : string) (vt_symbols : list string)
    (fast_window slow_window : Z) (fixed_size : float) : t :=
  let b := CtaTemplate.__init__ strategy_name vt_symbols "spot" in
  let b := CtaTemplate.set_parameters
             (<["fixed_size" := PyFloat fixed_size]>
                (<["slow_window" := PyInt slow_window]>
                   (<["fast_window" := PyInt fast_window]> ∅))) b in
  let b := CtaTemplate.set_variables
             (<["ma_trend" := PyInt 0]>
                (<["slow_ma" := PyFloat 0]>
                   (<["fast_ma" := PyFloat 0]> ∅))) b in
  mk b fast_window slow_window fixed_size 0%float 0%float 0%Z [].

Definition write_log (msg : string) : M t unit :=
  super (CtaTemplate.write_log msg).

Definition load_bars (days : Z) (interval : string) : M t unit :=
  super (CtaTemplate.load_bars days interval).

Definition on_init : M t unit :=
  write_log "Initializing DoubleMaStrategy";;
  load_bars 10 "1m";;
  set_self (λ self, set_base (CtaTemplate.set_inited true (base self)) self).

Definition on_start : M t unit :=
  write_log "Starting DoubleMaStrategy";;
  set_self (λ self, set_base (CtaTemplate.set_trading true (base self)) self).

Definition on_stop : M t unit :=
  write_log "Stopping DoubleMaStrategy";;
  set_self (λ self, set_base (CtaTemplate.set_trading false (base self)) self).


(** The rest of the class: the bar handler and the moving averages. *)

Definition set_bars (l : list Bar.t) (self : t) : t :=
  mk (base self) (fast_window self) (slow_window self) (fixed_size self)
     (fast_ma self) (slow_ma self) (ma_trend self) l.

Definition set_fast_ma (x : float) (self : t) : t :=
  mk (base self) (fast_window self) (slow_window self) (fixed_size self)
     x (slow_ma self) (ma_trend self) (bars self).

Definition set_slow_ma (x : float) (self : t) : t :=
  mk (base self) (fast_window self) (slow_window self) (fixed_size self)
     (fast_ma self) x (ma_trend self) (bars self).

Definition set_ma_trend (n : Z) (self : t) : t :=
  mk (base self) (fast_window self) (slow_window self) (fixed_size self)
     (fast_ma self) (slow_ma self) n (bars self).

(** [self.variables[key] = value] *)
Definition set_variable (key : string) (value : pyvalue) (self : t) : t :=
  set_base
    (CtaTemplate.set_variables
       (<[key := value]> (CtaTemplate.variables (base self))) (base self))
    self.

Definition get_pos (vt_symbol : string) : M t float :=
  super (CtaTemplate.get_pos vt_symbol).

Definition put_event : M t unit :=
  super CtaTemplate.put_event.

Section Bars.
Variable float_str : float → string.
Variable float_sum : list float → float.

Definition buy (vt_symbol : string) (price volume : float) (lock : bool)
    : M t string :=
  super (CtaTemplate.buy float_str vt_symbol price volume lock).

Definition sell (vt_symbol : string) (price volume : float) (lock : bool)
    : M t string :=
  super (CtaTemplate.sell float_str vt_symbol price volume lock).

Definition calculate_ma : MX t unit :=
  self ← liftx get_self;
  if (Z.of_nat (length (bars self)) <? slow_window self)%Z then mret tt
  else
    let fast_data := slice_last (fast_window self) (bars self) in
    fast ← outcome (sum_truediv float_sum (Bar.close <$> fast_data)
                      (fast_window self));
    liftx (set_self (set_fast_ma fast));;
    let slow_data := slice_last (slow_window self) (bars self) in
    slow ← outcome (sum_truediv float_sum (Bar.close <$> slow_data)
                      (slow_window self));
    liftx (set_self (set_slow_ma slow));;
    liftx (set_self (λ self, set_variable "fast_ma" (PyFloat (fast_ma self)) self));;
    liftx (set_self (λ self, set_variable "slow_ma" (PyFloat (slow_ma self)) self));;
    liftx (set_self (λ self, set_variable "ma_trend" (PyInt (ma_trend self)) self)).

Definition on_bar (bar : Bar.t) : MX t unit :=
  liftx (set_self (λ self, set_bars (bars self ++ [bar]) self));;
  self ← liftx get_self;
  (if (slow_window self * 2 <? Z.of_nat (length (bars self)))%Z
   then liftx (set_self (λ self, set_bars (tail (bars self)) self))
   else mret tt);;
  self ← liftx get_self;
  if (Z.of_nat (length (bars self)) <? slow_window self)%Z then mret tt
  else
    calculate_ma;;
    let vt_symbol := Bar.symbol bar +:+ "." +:+ Bar.exchange bar in
    pos ← liftx (get_pos vt_symbol);
    self ← liftx get_self;
    (if (slow_ma self <? fast_ma self)%float then
       if negb (ma_trend self =? 1)%Z then
         liftx (set_self (set_ma_trend 1));;
         if (pos <=? 0)%float then
           liftx (buy vt_symbol (Bar.close bar) (fixed_size self) false);;
           mret tt
         else mret tt
       else mret tt
     else if (fast_ma self <? slow_ma self)%float then
       if negb (ma_trend self =? -1)%Z then
         liftx (set_self (set_ma_trend (-1)));;
         if (0 <? pos)%float then
           liftx (sell vt_symbol (Bar.close bar) (abs pos) false);;
           mret tt
         else mret tt
       else mret tt
     else mret tt);;
    liftx put_event.
End Bars.

End DoubleMaStrategy.

(** ** class GridStrategy(CtaTemplate) *)

Module GridStrategy.

Record t : Type := mk {
  base : CtaTemplate.t;
  grid_size : float;
  grid_num : Z;
  order_size : float;
  buy_orders : gmap string string;
  sell_orders : gmap string string;
  last_price : float
}.

Definition set_base (b : CtaTemplate.t) (self : t) : t :=
  mk b (grid_size self) (grid_num self) (order_size self)
     (buy_orders self) (sell_orders self) (last_price self).

Definition super {A : Type} (m : M CtaTemplate.t A) : M t A :=
  inherited base set_base m.

Definition __init__ (strategy_name : string) (vt_symbols : list string)
    (grid_size : float) (grid_num : Z) (order_size : float) : t :=
  let b := CtaTemplate.__init__ strategy_name vt_symbols "spot" in
  let b := CtaTemplate.set_parameters
             (<["order_size" := PyFloat order_size]>
                (<["grid_num" := PyInt grid_num]>
                   (<["grid_size" := PyFloat grid_size]> ∅))) b in
  mk b grid_size grid_num order_size ∅ ∅ 0%float.

Definition write_log (msg : string) : M t unit :=
  super (CtaTemplate.write_log msg).

Definition cancel_all : M t unit :=
  super CtaTemplate.cancel_all.

Definition on_init : M t unit :=
  write_log "Initializing GridStrategy";;
  set_self (λ self, set_base (CtaTemplate.set_inited true (base self)) self).

Definition on_start : M t unit :=
  write_log "Starting GridStrategy";;
  set_self (λ self, set_base (CtaTemplate.set_trading true (base self)) self).

Definition on_stop : M t unit :=
  write_log "Stopping GridStrategy";;
  cancel_all;;
  set_self (λ self, set_base (CtaTemplate.set_trading false (base self)) self).

Section Orders.
Variable float_str : float → string.

Definition buy (vt_symbol : string) (price volume : float) (lock : bool)
    : M t string :=
  super (CtaTemplate.buy float_str vt_symbol price volume lock).

Definition sell (vt_symbol : string) (price volume : float) (lock : bool)
    : M t string :=
  super (CtaTemplate.sell float_str vt_symbol price volume lock).

(** [on_trade]: the inherited position update, then the reverse grid
    order; the returned order id is dropped. *)
Definition on_trade (trade : Trade.t) : M t unit :=
  super (CtaTemplate.on_trade trade);;
  self ← get_self;
  if String.eqb (Trade.direction trade) "long" then
    let sell_price := (Trade.price trade + grid_size self)%float in
    sell (Trade.symbol trade +:+ "." +:+ Trade.exchange trade)
         sell_price (Trade.volume trade) false;;
    mret tt
  else
    let buy_price := (Trade.price trade - grid_size self)%float in
    buy (Trade.symbol trade +:+ "." +:+ Trade.exchange trade)
        buy_price (Trade.volume trade) false;;
    mret tt.
End Orders.


(** The rest of the class: the tick handler and the grid. *)

Definition set_buy_orders (m : gmap string string) (self : t) : t :=
  mk (base self) (grid_size self) (grid_num self) (order_size self)
     m (sell_orders self) (last_price self).

Definition set_sell_orders (m : gmap string string) (self : t) : t :=
  mk (base self) (grid_size self) (grid_num self) (order_size self)
     (buy_orders self) m (last_price self).

Definition set_last_price (x : float) (self : t) : t :=
  mk (base self) (grid_size self) (grid_num self) (order_size self)
     (buy_orders self) (sell_orders self) x.

Section Ticks.
Variable float_str : float → string.

(** The body of the first loop of [check_grid_orders], for grid level [i]. *)
Definition place_buy (vt_symbol : string) (current_price : float) (i : Z)
    : MX t unit :=
  self ← liftx get_self;
  distance ← outcome (int_mul_float i (grid_size self));
  let buy_price := (current_price - distance)%float in
  match buy_orders self !! float_str buy_price with
  | Some _ => mret tt
  | None =>
      orderid ← liftx (buy float_str vt_symbol buy_price (order_size self) false);
      if negb (String.eqb orderid "") then
        liftx (set_self (λ self,
          set_buy_orders (<[float_str buy_price := orderid]> (buy_orders self)) self))
      else mret tt
  end.

(** The body of the second loop, for grid level [i]. *)
Definition place_sell (vt_symbol : string) (current_price : float) (i : Z)
    : MX t unit :=
  self ← liftx get_self;
  distance ← outcome (int_mul_float i (grid_size self));
  let sell_price := (current_price + distance)%float in
  match sell_orders self !! float_str sell_price with
  | Some _ => mret tt
  | None =>
      orderid ← liftx (sell float_str vt_symbol sell_price (order_size self) false);
      if negb (String.eqb orderid "") then
        liftx (set_self (λ self,
          set_sell_orders (<[float_str sell_price := orderid]> (sell_orders self)) self))
      else mret tt
  end.

Definition check_grid_orders (tick : Tick.t) : MX t unit :=
  let vt_symbol := Tick.symbol tick +:+ "." +:+ Tick.exchange tick in
  let current_price := Tick.last_price tick in
  self ← liftx get_self;
  for_each (py_range 1 (grid_num self + 1)) (place_buy vt_symbol current_price);;
  self ← liftx get_self;
  for_each (py_range 1 (grid_num self + 1)) (place_sell vt_symbol current_price).

Definition on_tick (tick : Tick.t) : MX t unit :=
  liftx (set_self (set_last_price (Tick.last_price tick)));;
  check_grid_orders tick.
End Ticks.

End GridStrategy.

(** ** A strategy instance is an object of one of the three classes; a
    call on it is resolved by its class. *)

Inductive strategy : Type :=
| Template (self : CtaTemplate.t)
| DoubleMa (self : DoubleMaStrategy.t)
| Grid (self : GridStrategy.t).


(** Runs a method of one class on an instance and wraps the object again. *)
Definition call {S A : Type} (wrap : S → strategy) (m : M S A) (self : S)
    (w : World) : exn + (A * strategy * World) :=
  match m self w with
  | inl e => inl e
  | inr (a, self', w') => inr (a, wrap self', w')
  end.

Definition on_start (s : strategy) (w : World) : exn + (unit * strategy * World) :=
  match s with
  | Template self => call Template CtaTemplate.on_start self w
  | DoubleMa self => call DoubleMa DoubleMaStrategy.on_start self w
  | Grid self => call Grid GridStrategy.on_start self w
  end.

Definition on_stop (s : strategy) (w : World) : exn + (unit * strategy * World) :=
  match s with
  | Template self => call Template CtaTemplate.on_stop self w
  | DoubleMa self => call DoubleMa DoubleMaStrategy.on_stop self w
  | Grid self => call Grid GridStrategy.on_stop self w
  end.

(** ** examples/backtesting_example.py: the simplified backtest

    [run_simplified_backtest] works on any strategy object through three of
    its members: the attribute [bars], which it assigns and reads, and the
    method [on_bar]. *)

Record strategy_class (S : Type) : Type := mk_class {
  assign_bars : list Bar.t → S → S;
  read_bars : S → list Bar.t;
  call_on_bar : Bar.t → MX S unit
}.

Arguments mk_class {S} assign_bars read_bars call_on_bar.
Arguments assign_bars {S} cls bars self : rename.
Arguments read_bars {S} cls self : rename.
Arguments call_on_bar {S} cls bar : rename.

Definition double_ma_class (float_str : float → string)
    (float_sum : list float → float) : strategy_class DoubleMaStrategy.t :=
  mk_class DoubleMaStrategy.set_bars DoubleMaStrategy.bars
           (DoubleMaStrategy.on_bar float_str float_sum).

(** A [GridStrategy] object has no attribute [bars] until the backtest
    assigns one; its [on_bar] is the inherited one. *)
Record grid_with_bars : Type := mk_grid_with_bars {
  grid_object : GridStrategy.t;
  grid_bars : list Bar.t
}.

Definition grid_class : strategy_class grid_with_bars :=
  mk_class
    (λ bars self, mk_grid_with_bars (grid_object self) bars)
    grid_bars
    (λ bar,
       liftx (inherited grid_object
                (λ g self, mk_grid_with_bars g (grid_bars self))
                (GridStrategy.super (CtaTemplate.on_bar bar)))).

Definition run_simplified_backtest {S : Type} (cls : strategy_class S)
    (bars : list Bar.t) : MX S unit :=
  liftx (set_self (assign_bars cls []));;
  for_each bars (λ bar,
    call_on_bar cls bar;;
    strategy ← liftx get_self;
    if (Z.of_nat (length (read_bars cls strategy)) `mod` 1000 =? 0)%Z then
      liftx (print ("  Processed "
                    +:+ pretty (Z.of_nat (length (read_bars cls strategy)))
                    +:+ " bars..."))
    else mret tt).

(** * Notions the properties are stated with *)

(** The [positions] key [on_trade] builds from a trade. *)
Definition trade_vt_symbol (trade : Trade.t) : string :=
  Trade.symbol trade +:+ "." +:+ Trade.exchange trade.

(** A sequence of trades dispatched one after the other; an exception ends
    the dispatch. *)
Fixpoint on_trades (trades : list Trade.t) : M CtaTemplate.t unit :=
  match trades with
  | [] => mret tt
  | trade :: rest => CtaTemplate.on_trade trade;; on_trades rest
  end.

(** The side/offset rule applied to a running position: [+volume] for
    (long, open) and (short, close), [-volume] for (short, open) and
    (long, close). *)
Definition signed_apply (x : float) (trade : Trade.t) : float :=
  let opening := String.eqb (Trade.offset trade) "open" in
  if String.eqb (Trade.direction trade) "long" then
    if opening then (x + Trade.volume trade)%float else (x - Trade.volume trade)%float
  else if String.eqb (Trade.direction trade) "short" then
    if opening then (x - Trade.volume trade)%float else (x + Trade.volume trade)%float
  else x.

(** The signed sum of the volumes of the trades of one symbol, from zero, in
    the order of the trades. *)
Definition signed_sum (vt_symbol : string) (trades : list Trade.t) : float :=
  foldl (λ acc trade,
           if String.eqb (trade_vt_symbol trade) vt_symbol
           then signed_apply acc trade else acc)
        0%float trades.

(** The trade carries one of the two documented directions. *)
Definition sided (trade : Trade.t) : Prop :=
  Trade.direction trade = "long" ∨ Trade.direction trade = "short".

(** The world after one more printed line. *)
Definition printed (line : string) (w : World) : World :=
  mkWorld (stdout w ++ [line]) (clock w) (clock_reads w).

(** The line [write_log] prints for a strategy. *)
Definition log_line (self : CtaTemplate.t) (msg : string) : string :=
  "[" +:+ CtaTemplate.strategy_name self +:+ "] " +:+ msg.

(** The method returns normally, with the positions map it started from. *)
Definition keeps_positions {A : Type} (m : M CtaTemplate.t A) : Prop :=
  ∀ (self : CtaTemplate.t) (w : World),
    ∃ (r : A) (self' : CtaTemplate.t) (w' : World),
      m self w = inr (r, self', w')
      ∧ CtaTemplate.positions self' = CtaTemplate.positions self.


(** ** Callers of the template *)

(** One call of a method of [CtaTemplate], with its arguments. *)
Inductive template_call : Type :=
| CallOnInit
| CallOnStart
| CallOnStop
| CallOnTick (tick : Tick.t)
| CallOnBar (bar : Bar.t)
| CallOnBars (bars : gmap string Bar.t)
| CallOnOrder (order : Order.t)
| CallOnTrade (trade : Trade.t)
| CallBuy (vt_symbol : string) (price volume : float) (lock : bool)
| CallSell (vt_symbol : string) (price volume : float) (lock : bool)
| CallShort (vt_symbol : string) (price volume : float) (lock : bool)
| CallCover (vt_symbol : string) (price volume : float) (lock : bool)
| CallCancelOrder (vt_orderid : string)
| CallCancelAll
| CallGetPos (vt_symbol : string)
| CallWriteLog (msg : string)
| CallLoadBars (days : Z) (interval : string)
| CallPutEvent.

(** The call performed, its result dropped. *)
Definition perform (float_str : float → string) (c : template_call)
    : M CtaTemplate.t unit :=
  match c with
  | CallOnInit => CtaTemplate.on_init
  | CallOnStart => CtaTemplate.on_start
  | CallOnStop => CtaTemplate.on_stop
  | CallOnTick tick => CtaTemplate.on_tick tick
  | CallOnBar bar => CtaTemplate.on_bar bar
  | CallOnBars bars => CtaTemplate.on_bars bars
  | CallOnOrder order => CtaTemplate.on_order order
  | CallOnTrade trade => CtaTemplate.on_trade trade
  | CallBuy vt_symbol price volume lock =>
      CtaTemplate.buy float_str vt_symbol price volume lock;; mret tt
  | CallSell vt_symbol price volume lock =>
      CtaTemplate.sell float_str vt_symbol price volume lock;; mret tt
  | CallShort vt_symbol price volume lock =>
      CtaTemplate.short float_str vt_symbol price volume lock;; mret tt
  | CallCover vt_symbol price volume lock =>
      CtaTemplate.cover float_str vt_symbol price volume lock;; mret tt
  | CallCancelOrder vt_orderid => CtaTemplate.cancel_order vt_orderid
  | CallCancelAll => CtaTemplate.cancel_all
  | CallGetPos vt_symbol => CtaTemplate.get_pos vt_symbol;; mret tt
  | CallWriteLog msg => CtaTemplate.write_log msg
  | CallLoadBars days interval => CtaTemplate.load_bars days interval
  | CallPutEvent => CtaTemplate.put_event
  end.

(** A sequence of calls, one after the other; an exception ends it. *)
Fixpoint perform_all (float_str : float → string) (calls : list template_call)
    : M CtaTemplate.t unit :=
  match calls with
  | [] => mret tt
  | c :: rest => perform float_str c;; perform_all float_str rest
  end.

(** Every grid level up to [n] converts to a float. *)
Definition levels_convert (n : Z) : Prop :=
  ∀ i : Z, (1 ≤ i ≤ n)%Z → is_Some (float_of_int i).

(** The bars [on_bar] keeps after appending one: the oldest is dropped once
    the history exceeds twice the slow window. *)
Definition history_after (slow_window : Z) (bars : list Bar.t) (bar : Bar.t)
    : list Bar.t :=
  if (slow_window * 2 <? Z.of_nat (length (bars ++ [bar])))%Z
  then tail (bars ++ [bar])
  else bars ++ [bar].

(** One pass of the loop of [run_simplified_backtest]: the handler, then
    the progress line when the number of bars held is a multiple of 1000. *)
Definition backtest_step {S : Type} (cls : strategy_class S) (bar : Bar.t)
    : MX S unit :=
  call_on_bar cls bar;;
  strategy ← liftx get_self;
  if (Z.of_nat (length (read_bars cls strategy)) `mod` 1000 =? 0)%Z then
    liftx (print ("  Processed "
                  +:+ pretty (Z.of_nat (length (read_bars cls strategy)))
                  +:+ " bars..."))
  else mret tt.

(** The simplified backtest without its progress output. *)
Definition feed_bars {S : Type} (cls : strategy_class S) (bars : list Bar.t)
    : MX S unit :=
  liftx (set_self (assign_bars cls []));;
  for_each bars (call_on_bar cls).

(** * The backtest engine: order book, matching and replay

    The engine (order book, matching model, replay loop) is the Rust crate
    behind [PyBacktestingEngine]; the Python files only call it. Its model
    here follows the design text: data model, strategy contract, replay
    feed, matching policy. Prices and volumes are integer multiples of the
    price tick and the lot. *)

Module Engine.

Inductive side : Type := Buy | Sell.

Inductive offset : Type := Open | Close.

Inductive status : Type :=
| Submitted | PartiallyFilled | Filled | Cancelled | Rejected.

(** Modelled from the spec: the Bar of the data model (the engine's own
    bar type is not among the Python files). *)
Record bar : Type := mk_bar {
  symbol : string;
  timestamp : Z;
  open : Z;
  high : Z;
  low : Z;
  close : Z;
  volume : Z
}.

(** Modelled from the spec: the Order of the data model, with the creation
    timestamp the testable properties refer to. *)
Record order : Type := mk_order {
  order_id : nat;
  order_symbol : string;
  order_side : side;
  order_offset : offset;
  limit_price : Z;
  requested : Z;
  filled : Z;
  order_status : status;
  created_timestamp : Z
}.

(** Modelled from the spec: the Trade of the data model. *)
Record trade : Type := mk_trade {
  trade_id : nat;
  trade_order : nat;
  trade_symbol : string;
  trade_side : side;
  trade_offset : offset;
  fill_price : Z;
  fill_volume : Z;
  trade_timestamp : Z
}.

(** What the order-control calls answer. *)
Inductive rejection : Type :=
| TradingDisabled | NonPositiveVolume | UnsupportedOffset.

Inductive submit_result : Type :=
| Accepted (id : nat)
| Refused (why : rejection).

Inductive cancel_result : Type :=
| CancelDone | AlreadyFilled | NotPending.

(** Modelled from the spec: a callback of the strategy; it issues
    order-control calls, reads each answer, and ends with its next state. *)
Inductive callback (S : Type) : Type :=
| Return (s : S)
| Submit (sym : string) (sd : side) (off : offset) (price vol : Z)
         (k : submit_result → callback S)
| Cancel (id : nat) (k : cancel_result → callback S).

Arguments Return {S} s.
Arguments Submit {S} sym sd off price vol k.
Arguments Cancel {S} id k.

(** Modelled from the spec: the strategy contract, the hooks the engine
    dispatches to. *)
Class Strategy (S : Type) : Type := {
  on_bar : S → bar → callback S;
  on_order : S → order → callback S;
  on_trade : S → trade → callback S
}.

(** Configuration: the slippage offset and the side/offset combinations the
    instrument supports. *)
Record config : Type := mk_config {
  slippage : Z;
  supported : side → offset → bool
}.

Record engine (S : Type) : Type := mk_engine {
  strat : S;
  trading : bool;
  book : gmap nat order;
  trades : list trade;
  next_order_id : nat
}.

Arguments mk_engine {S} strat trading book trades next_order_id.
Arguments strat {S} e.
Arguments trading {S} e.
Arguments book {S} e.
Arguments trades {S} e.
Arguments next_order_id {S} e.

(** One timestamp-group of the merged feed. *)
Record group : Type := mk_group {
  group_time : Z;
  group_bars : list bar
}.

Inductive failure : Type :=
| EmptySeries | BadTimestamps | BadPrices.

Section Model.
Context {S : Type} `{Strategy S}.
Variable cfg : config.

Definition set_strat (s : S) (e : engine S) : engine S :=
  mk_engine s (trading e) (book e) (trades e) (next_order_id e).

Definition set_trading (b : bool) (e : engine S) : engine S :=
  mk_engine (strat e) b (book e) (trades e) (next_order_id e).

Definition set_book (bk : gmap nat order) (e : engine S) : engine S :=
  mk_engine (strat e) (trading e) bk (trades e) (next_order_id e).

Definition set_status (st : status) (o : order) : order :=
  mk_order (order_id o) (order_symbol o) (order_side o) (order_offset o)
           (limit_price o) (requested o) (filled o) st (created_timestamp o).

Definition fill (o : order) : order :=
  mk_order (order_id o) (order_symbol o) (order_side o) (order_offset o)
           (limit_price o) (requested o) (requested o) Filled (created_timestamp o).

Definition pending (o : order) : bool :=
  match order_status o with
  | Submitted | PartiallyFilled => true
  | _ => false
  end.

(** Modelled from the spec: [submit] of the engine, absent from the Python
    files. It is validated by the engine; an accepted order enters the
    book with the timestamp of the data point being dispatched, a refused
    one never does. *)
Definition submit (now : Z) (sym : string) (sd : side) (off : offset)
    (price vol : Z) (e : engine S) : submit_result * engine S :=
  if negb (trading e) then (Refused TradingDisabled, e)
  else if (vol <=? 0)%Z then (Refused NonPositiveVolume, e)
  else if negb (supported cfg sd off) then (Refused UnsupportedOffset, e)
  else
    let id := next_order_id e in
    let o := mk_order id sym sd off price vol 0 Submitted now in
    (Accepted id,
     mk_engine (strat e) (trading e) (<[id := o]> (book e)) (trades e)
               (Datatypes.S id)).

(** Modelled from the spec: [cancel] of the engine; a pending order becomes
    [Cancelled], a filled one answers [AlreadyFilled]. *)
Definition cancel (id : nat) (e : engine S) : cancel_result * engine S :=
  match book e !! id with
  | Some o =>
      if pending o then
        (CancelDone, set_book (<[id := set_status Cancelled o]> (book e)) e)
      else
        match order_status o with
        | Filled => (AlreadyFilled, e)
        | _ => (NotPending, e)
        end
  | None => (NotPending, e)
  end.

(** Modelled from the spec: the engine serving the calls of one callback,
    to its end. *)
Fixpoint run (now : Z) (c : callback S) (e : engine S) : engine S :=
  match c with
  | Return s => set_strat s e
  | Submit sym sd off price vol k =>
      let '(r, e') := submit now sym sd off price vol e in
      run now (k r) e'
  | Cancel id k =>
      let '(r, e') := cancel id e in
      run now (k r) e'
  end.

(** Modelled from the spec: the dispatch of one bar to [on_bar]. *)
Definition dispatch_bar (e : engine S) (b : bar) : engine S :=
  run (timestamp b) (on_bar (strat e) b) e.

(** Modelled from the spec: the matching policy of the engine. A buy fills
    at [min price high], slippage added, when [low <= price]; a sell is
    the mirror image, slippage subtracted. *)
Definition crossing (o : order) (b : bar) : option Z :=
  match order_side o with
  | Buy =>
      if (low b <=? limit_price o)%Z
      then Some (Z.min (limit_price o) (high b) + slippage cfg)%Z
      else None
  | Sell =>
      if (limit_price o <=? high b)%Z
      then Some (Z.max (limit_price o) (low b) - slippage cfg)%Z
      else None
  end.

(** Modelled from the spec: one eligible order against one bar. A fill
    makes the order [Filled], appends exactly one trade stamped with the
    bar's timestamp, and dispatches [on_order] then [on_trade]. *)
Definition match_order (b : bar) (e : engine S) (id : nat) : engine S :=
  match book e !! id with
  | Some o =>
      if pending o && String.eqb (order_symbol o) (symbol b) then
        match crossing o b with
        | Some px =>
            let o' := fill o in
            let tr := mk_trade (length (trades e)) id (order_symbol o)
                        (order_side o) (order_offset o) px (requested o)
                        (timestamp b) in
            let e1 := mk_engine (strat e) (trading e) (<[id := o']> (book e))
                        (trades e ++ [tr]) (next_order_id e) in
            let e2 := run (timestamp b) (on_order (strat e1) o') e1 in
            run (timestamp b) (on_trade (strat e2) tr) e2
        | None => e
        end
      else e
  | None => e
  end.

(** Modelled from the spec: the orders eligible for a data point, those
    pending in the book before the data point is dispatched. *)
Definition eligible (e : engine S) : list nat :=
  List.filter (λ id, match book e !! id with
                     | Some o => pending o
                     | None => false
                     end)
              (seq 0 (next_order_id e)).

(** Modelled from the spec: one step of the replay loop. The group's bars
    go to the strategy, then the orders that were already pending are
    matched against them. *)
Definition step (e : engine S) (g : group) : engine S :=
  let ids := eligible e in
  let e1 := foldl dispatch_bar e (group_bars g) in
  foldl (λ e b, foldl (match_order b) e ids) e1 (group_bars g).

(** Modelled from the spec: the end of the replay, where orders still
    pending are force-cancelled. *)
Definition finish (e : engine S) : engine S :=
  mk_engine (strat e) false
            ((λ o, if pending o then set_status Cancelled o else o) <$> book e)
            (trades e) (next_order_id e).

(** Modelled from the spec: the bar invariants ([low <= open, close <= high])
    and the group's timestamp. *)
Definition bar_ok (t : Z) (b : bar) : bool :=
  (timestamp b =? t)%Z && (low b <=? open b)%Z && (open b <=? high b)%Z
  && (low b <=? close b)%Z && (close b <=? high b)%Z.

(** Modelled from the spec: the feed invariants, checked before the replay
    starts (strictly increasing timestamps, well-formed bars). *)
Fixpoint check_feed (prev : option Z) (feed : list group) : option failure :=
  match feed with
  | [] => None
  | g :: rest =>
      if negb (match prev with
               | Some p => (p <? group_time g)%Z
               | None => true
               end)
      then Some BadTimestamps
      else if negb (forallb (bar_ok (group_time g)) (group_bars g))
      then Some BadPrices
      else check_feed (Some (group_time g)) rest
  end.

(** Modelled from the spec: the engine at the start of a run, trading
    enabled, book and trade log empty. *)
Definition start (s : S) : engine S :=
  mk_engine s true ∅ [] 0.

(** Modelled from the spec: the run of the engine over a feed; a feed that
    is empty or breaks an invariant aborts the run. *)
Definition backtest (s : S) (feed : list group) : failure + engine S :=
  match feed with
  | [] => inl EmptySeries
  | _ =>
      match check_feed None feed with
      | Some why => inl why
      | None => inr (finish (foldl step (start s) feed))
      end
  end.

End Model.
End Engine.

(** ** What the replay maintains *)

Section EngineNotions.
Import Engine.
Context {S : Type}.

(** Every order in the book sits under its own id, below the next id to be
    issued, and was created no later than [T]. *)
Definition book_before (T : Z) (e : engine S) : Prop :=
  ∀ (i : nat) (o : order),
    book e !! i = Some o →
    order_id o = i ∧ (i < next_order_id e)%nat ∧ (created_timestamp o ≤ T)%Z.

(** No look-ahead: every trade in the log names an order of the book, and
    that order was created strictly before the trade's timestamp. *)
Definition no_look_ahead (e : engine S) : Prop :=
  ∀ tr : trade,
    tr ∈ trades e →
    ∃ o : order,
      book e !! trade_order tr = Some o
      ∧ order_id o = trade_order tr
      ∧ (created_timestamp o < trade_timestamp tr)%Z.

(** From [e] to [e'] no order leaves the book or changes its identity or
    creation time. *)
Definition keeps_orders (e e' : engine S) : Prop :=
  ∀ (i : nat) (o : order),
    book e !! i = Some o →
    ∃ o' : order,
      book e' !! i = Some o'
      ∧ order_id o' = order_id o
      ∧ created_timestamp o' = created_timestamp o.

(** The orders [ids] are in the book and were created strictly before [T]. *)
Definition older (T : Z) (ids : list nat) (e : engine S) : Prop :=
  ∀ id : nat,
    id ∈ ids →
    ∃ o : order, book e !! id = Some o ∧ (created_timestamp o < T)%Z.

(** The three facts carried through every engine operation at time [now]. *)
Definition carried (now : Z) (e e' : engine S) : Prop :=
  book_before now e' ∧ keeps_orders e e' ∧ trades e' = trades e.

End EngineNotions.

(** * The statistics calculator: Sharpe ratio

    The calculator is part of the Rust engine ([calculate_statistics]); the
    Python files only print its [sharpe_ratio]. Its model here follows the
    design text, on binary64 numbers like the rest of the program: a
    division by zero does not stop the computation, it yields an infinity
    or a NaN. *)

Module Statistics.











End Statistics.

(** * Sample objects the properties are exercised on *)

Definition sample_world : World :=
  mkWorld [] (λ _, 0%float) 0.

(** A stand-in for the rendering of floats; the properties hold for any. *)
Definition sample_float_str (x : float) : string := "<float>".

Definition sample_spot : CtaTemplate.t :=
  CtaTemplate.__init__ "demo" ["BTCUSDT.BINANCE"] "spot".

Definition sample_spot_trading : CtaTemplate.t :=
  CtaTemplate.set_trading true sample_spot.

Definition sample_futures_trading : CtaTemplate.t :=
  CtaTemplate.set_trading true
    (CtaTemplate.__init__ "demo" ["BTCUSDT.BINANCE"] "futures").

Definition sample_trade : Trade.t :=
  Trade.mk "t1" "o1" "BTCUSDT" "BINANCE" "long" "open" 50000%float 1%float 0.

(** A strategy for the engine model: it buys one lot at 100 on the first
    bar it sees and does nothing afterwards. *)
#[global] Instance buy_once : Engine.Strategy bool := {
  Engine.on_bar done b :=
    if done then Engine.Return true
    else Engine.Submit (Engine.symbol b) Engine.Buy Engine.Open 100 1
           (λ _, Engine.Return true);
  Engine.on_order done _ := Engine.Return done;
  Engine.on_trade done _ := Engine.Return done
}.

Definition sample_config : Engine.config :=
  Engine.mk_config 0 (λ _ _, true).

Definition sample_feed : list Engine.group :=
  [ Engine.mk_group 1 [Engine.mk_bar "BTCUSDT" 1 100 110 90 105 10];
    Engine.mk_group 2 [Engine.mk_bar "BTCUSDT" 2 105 108 95 100 10] ].

Definition sample_fill : Engine.trade :=
  Engine.mk_trade 0 0 "BTCUSDT" Engine.Buy Engine.Open 100 1 2.

Definition sample_run : Engine.engine bool :=
  Engine.finish
    (foldl (Engine.step sample_config) (Engine.start false) sample_feed).

(** ** Sample objects for the handlers and the backtest *)

(** A rendering of floats that tells different floats apart. *)
Definition sample_float_repr (x : float) : string :=
  match Prim2SF x with
  | S754_zero s => if s then "-0.0" else "0.0"
  | S754_infinity s => if s then "-inf" else "inf"
  | S754_nan => "nan"
  | S754_finite s m e =>
      (if s then "-" else "") +:+ pretty (Z.pos m) +:+ "*2^" +:+ pretty e
  end.

(** The sum of floats from left to right. *)
Definition sample_float_sum (xs : list float) : float :=
  foldl PrimFloat.add 0%float xs.

Definition sample_other_trade : Trade.t :=
  Trade.mk "t2" "o2" "ETHUSDT" "BINANCE" "long" "open" 2000%float 1%float 0.

Definition sample_closing_trade : Trade.t :=
  Trade.mk "t3" "o3" "BTCUSDT" "BINANCE" "short" "open" 50100%float 1%float 1.

Definition sample_calls : list template_call :=
  [ CallOnInit; CallOnStart;
    CallBuy "BTCUSDT.BINANCE" 50000 1 false;
    CallOnTrade sample_trade;
    CallCancelAll;
    CallGetPos "BTCUSDT.BINANCE";
    CallOnStop ].

Definition sample_grid : GridStrategy.t :=
  GridStrategy.__init__ "grid" ["BTCUSDT.BINANCE"] 100 5 0.5.

Definition sample_grid_trading : GridStrategy.t :=
  GridStrategy.set_base
    (CtaTemplate.set_trading true (GridStrategy.base sample_grid)) sample_grid.

Definition sample_tick : Tick.t :=
  Tick.mk "BTCUSDT" "BINANCE" 0 50000 100 49995 50005.

Definition sample_bar (minute : Z) (close : float) : Bar.t :=
  Bar.mk "BTCUSDT" "BINANCE" minute "1m" close close close close 100.

(** A crossover strategy with windows 1 and 2, trading, that has seen one
    bar. *)
Definition sample_dma : DoubleMaStrategy.t :=
  DoubleMaStrategy.set_bars [sample_bar 0 100]
    (DoubleMaStrategy.set_base
       (CtaTemplate.set_trading true
          (DoubleMaStrategy.base
             (DoubleMaStrategy.__init__ "dma" ["BTCUSDT.BINANCE"] 1 2 0.5)))
       (DoubleMaStrategy.__init__ "dma" ["BTCUSDT.BINANCE"] 1 2 0.5)).

(** The same strategy as built, with the default windows 10 and 20. *)
Definition sample_dma_default : DoubleMaStrategy.t :=
  DoubleMaStrategy.__init__ "dma" ["BTCUSDT.BINANCE"] 10 20 0.5.

Definition sample_bars : list Bar.t :=
  [ sample_bar 1 110; sample_bar 2 120; sample_bar 3 90;
    sample_bar 4 95; sample_bar 5 130 ].

(** The strategy and the world a handler leaves when it returns (those it
    was given when it raises). *)
Definition state_after {S : Type} (m : MX S unit) (self : S) (w : World)
    : S * World :=
  match m self w with
  | inr (_, self', w') => (self', w')
  | inl _ => (self, w)
  end.

(** The trading grid after the sample tick, then stopped, then started. *)
Definition sample_grid_ticked : GridStrategy.t * World :=
  state_after (GridStrategy.on_tick sample_float_repr sample_tick)
    sample_grid_trading sample_world.

Definition sample_grid_stopped : GridStrategy.t * World :=
  state_after (liftx GridStrategy.on_stop)
    sample_grid_ticked.1 sample_grid_ticked.2.

Definition sample_grid_restarted : GridStrategy.t * World :=
  state_after (liftx GridStrategy.on_start)
    sample_grid_stopped.1 sample_grid_stopped.2.

(** The crossover strategy after a second bar, closing at 110. *)
Definition sample_dma_after_bar : DoubleMaStrategy.t * World :=
  state_after
    (DoubleMaStrategy.on_bar sample_float_repr sample_float_sum (sample_bar 1 110))
    sample_dma sample_world.

(** The crossover strategy after the simplified backtest on the sample
    bars. *)
Definition sample_dma_backtested : DoubleMaStrategy.t * World :=
  state_after
    (run_simplified_backtest (double_ma_class sample_float_repr sample_float_sum)
       sample_bars)
    sample_dma sample_world.

(** * Properties of the strategy template *)

(** Unfolds the runtime operations so that a method body can be run. *)
Ltac run_method :=
  unfold mbind, mret, M_bind, M_ret, bind, ret, raise, get_self, set_self,
    print, datetime_now_timestamp, inherited in *.

Section TemplateFacts.
Import CtaTemplate.

Lemma positions_iadd_run key value self w :
  positions_iadd key value self w =
    match positions self !! key with
    | Some x => inr (tt, set_positions (<[key := (x + value)%float]> (positions self)) self, w)
    | None => inl (KeyError key)
    end.
Proof.
  unfold positions_iadd, positions_getitem, positions_setitem. run_method.
  destruct (positions self !! key); reflexivity.
Qed.

Lemma positions_isub_run key value self w :
  positions_isub key value self w =
    match positions self !! key with
    | Some x => inr (tt, set_positions (<[key := (x - value)%float]> (positions self)) self, w)
    | None => inl (KeyError key)
    end.
Proof.
  unfold positions_isub, positions_getitem, positions_setitem. run_method.
  destruct (positions self !! key); reflexivity.
Qed.

(** What [on_trade] does, case by case. *)
Lemma on_trade_run trade self w :
  on_trade trade self w =
    match positions self !! trade_vt_symbol trade with
    | Some x =>
        let x' :=
          if String.eqb (Trade.direction trade) "long"
          then if String.eqb (Trade.offset trade) "open"
               then (x + Trade.volume trade)%float
               else (x - Trade.volume trade)%float
          else if String.eqb (Trade.offset trade) "open"
               then (x - Trade.volume trade)%float
               else (x + Trade.volume trade)%float in
        inr (tt, set_positions (<[trade_vt_symbol trade := x']> (positions self)) self, w)
    | None => inl (KeyError (trade_vt_symbol trade))
    end.
Proof.
  unfold on_trade, trade_vt_symbol.
  destruct (String.eqb (Trade.direction trade) "long"),
           (String.eqb (Trade.offset trade) "open");
    rewrite ?positions_iadd_run, ?positions_isub_run;
    destruct (positions self !! _); reflexivity.
Qed.

Lemma on_trade_keys trade self w self' w' :
  on_trade trade self w = inr (tt, self', w') →
  dom (positions self') = dom (positions self) ∧ w' = w.
Proof.
  rewrite on_trade_run.
  destruct (positions self !! trade_vt_symbol trade) as [x|] eqn:Hx; [|discriminate].
  simpl. intros [= Hs Hw]. subst self' w'. split; [|reflexivity].
  simpl. apply dom_insert_lookup_L. eauto.
Qed.

Lemma init_positions_lookup (symbols : list string) (m : gmap string float) sym :
  foldl (λ positions symbol, <[symbol := 0%float]> positions) m symbols !! sym =
    if bool_decide (sym ∈ symbols) then Some 0%float else m !! sym.
Proof.
  revert m. induction symbols as [|s symbols IH]; intros m.
  - rewrite bool_decide_eq_false_2 by apply not_elem_of_nil. reflexivity.
  - change (foldl ?f m (s :: symbols)) with (foldl f (f m s) symbols).
    rewrite IH. destruct (decide (sym = s)) as [->|Hne].
    + rewrite (bool_decide_eq_true_2 (s ∈ s :: symbols)) by apply list_elem_of_here.
      rewrite lookup_insert_eq. by case_bool_decide.
    + rewrite lookup_insert_ne by done.
      destruct (decide (sym ∈ symbols)) as [Hin|Hin].
      * rewrite !bool_decide_eq_true_2; [done | by apply list_elem_of_further | done].
      * rewrite !bool_decide_eq_false_2; [done | | done].
        by intros [?|?]%elem_of_cons.
Qed.
End TemplateFacts.

(** ** Position bookkeeping *)

Section Positions.
Import CtaTemplate.

(** C1, at a trade of a symbol the strategy holds no position for. A
    strategy subscribed to BTCUSDT reads [0.0] for ETHUSDT; on a buy/open
    trade of one unit of ETHUSDT the position should become [1.0], and
    [on_trade] raises [KeyError] instead, as it does on every trade whose
    [symbol.exchange] key has no recorded position. Where the key is
    recorded, [on_trade] returns and the position read back by [get_pos]
    is the old one plus the volume for (long, open) and (short, not open),
    minus the volume for (short, open) and (long, not open). *)
Theorem on_trade_unrecorded_symbol :
  let trade :=
    Trade.mk "t1" "o1" "ETHUSDT" "BINANCE" "long" "open" 2000%float 1%float 0 in
  let fresh := __init__ "s" ["BTCUSDT.BINANCE"] "spot" in
  let w0 := mkWorld [] (λ _, 0%float) 0 in
  get_pos "ETHUSDT.BINANCE" fresh w0 = inr (0%float, fresh, w0)
  ∧ on_trade trade fresh w0 = inl (KeyError "ETHUSDT.BINANCE")
  ∧ (∀ (self : CtaTemplate.t) (w : World) (t : Trade.t),
       positions self !! trade_vt_symbol t = None →
       on_trade t self w = inl (KeyError (trade_vt_symbol t)))
  ∧ (∀ (self : CtaTemplate.t) (w : World) (t : Trade.t) (p : float),
       positions self !! trade_vt_symbol t = Some p →
       ∃ (self' : CtaTemplate.t) (p' : float),
         on_trade t self w = inr (tt, self', w)
         ∧ get_pos (trade_vt_symbol t) self' w = inr (p', self', w)
         ∧ ((Trade.direction t = "long" ∧ Trade.offset t = "open")
            ∨ (Trade.direction t = "short" ∧ Trade.offset t ≠ "open") →
            p' = (p + Trade.volume t)%float)
         ∧ ((Trade.direction t = "short" ∧ Trade.offset t = "open")
            ∨ (Trade.direction t = "long" ∧ Trade.offset t ≠ "open") →
            p' = (p - Trade.volume t)%float)).
Proof.
  cbv zeta. split; [reflexivity|]. split; [reflexivity|]. split.
  - intros self w t Hnone. by rewrite on_trade_run, Hnone.
  - intros self w t p Hp. rewrite on_trade_run, Hp. cbv zeta.
    eexists _, _. split; [reflexivity|]. split.
    + unfold get_pos. run_method. simpl. by rewrite lookup_insert_eq.
    + split.
      * intros [[-> ->]|[-> Hoff]]; [reflexivity|].
        apply String.eqb_neq in Hoff. rewrite Hoff. reflexivity.
      * intros [[-> ->]|[-> Hoff]]; [reflexivity|].
        apply String.eqb_neq in Hoff. rewrite Hoff. reflexivity.
Qed.

Lemma on_trades_keys trades self w self' w' :
  on_trades trades self w = inr (tt, self', w') →
  dom (positions self') = dom (positions self) ∧ w' = w.
Proof.
  revert self. induction trades as [|trade rest IH]; intros self; simpl.
  - run_method. intros [= Hs Hw]. by subst.
  - run_method. destruct (on_trade trade self w) as [e|[[[] self1] w1]] eqn:Hstep;
      [discriminate|].
    intros Hrest. apply on_trade_keys in Hstep as [Hdom ->].
    apply IH in Hrest as [Hdom' ->]. by rewrite Hdom', Hdom.
Qed.

(** C10. [get_pos] returns for every symbol string and leaves strategy and
    world as they were; it yields the recorded position, and [0.0] when
    none is recorded. After [__init__] it yields [0.0] for every symbol,
    every subscribed symbol being recorded with [0.0]; a symbol that was
    not subscribed still reads [0.0] after any dispatch of trades. *)
Theorem get_pos_total :
  (∀ (self : CtaTemplate.t) (w : World) (vt_symbol : string),
     get_pos vt_symbol self w =
       inr (default 0%float (positions self !! vt_symbol), self, w))
  ∧ (∀ (self : CtaTemplate.t) (w : World) (vt_symbol : string),
       positions self !! vt_symbol = None →
       get_pos vt_symbol self w = inr (0%float, self, w))
  ∧ (∀ (name : string) (symbols : list string) (type : string) (w : World)
       (vt_symbol : string),
       get_pos vt_symbol (__init__ name symbols type) w =
         inr (0%float, __init__ name symbols type, w))
  ∧ (∀ (name : string) (symbols : list string) (type : string)
       (vt_symbol : string),
       vt_symbol ∈ symbols →
       positions (__init__ name symbols type) !! vt_symbol = Some 0%float)
  ∧ (∀ (name : string) (symbols : list string) (type : string)
       (trades : list Trade.t) (w w' : World) (self' : CtaTemplate.t)
       (vt_symbol : string),
       vt_symbol ∉ symbols →
       on_trades trades (__init__ name symbols type) w = inr (tt, self', w') →
       get_pos vt_symbol self' w' = inr (0%float, self', w')).
Proof.
  assert (Hrun : ∀ self w vt_symbol,
    get_pos vt_symbol self w =
      inr (default 0%float (positions self !! vt_symbol), self, w))
    by reflexivity.
  split; [exact Hrun|]. split; [|split; [|split]].
  - intros self w vt_symbol Hnone. by rewrite Hrun, Hnone.
  - intros name symbols type w vt_symbol. rewrite Hrun.
    unfold __init__; simpl. rewrite init_positions_lookup.
    by case_bool_decide.
  - intros name symbols type vt_symbol Hin.
    unfold __init__; simpl. rewrite init_positions_lookup.
    by rewrite bool_decide_eq_true_2.
  - intros name symbols type trades w w' self' vt_symbol Hnotin Hrest.
    apply on_trades_keys in Hrest as [Hdom _].
    rewrite Hrun. replace (positions self' !! vt_symbol) with (@None float); [done|].
    symmetry. apply not_elem_of_dom. rewrite Hdom. apply not_elem_of_dom.
    unfold __init__; simpl. rewrite init_positions_lookup.
    by rewrite bool_decide_eq_false_2.
Qed.
End Positions.

(** ** Replaying a sequence of trades *)

Section Replay.
Import CtaTemplate.

Lemma on_trades_fold trades : ∀ self w,
  Forall (λ trade, trade_vt_symbol trade ∈ dom (positions self)) trades →
  Forall sided trades →
  ∃ self',
    on_trades trades self w = inr (tt, self', w)
    ∧ ∀ vt_symbol,
        default 0%float (positions self' !! vt_symbol) =
          foldl (λ acc trade,
                   if String.eqb (trade_vt_symbol trade) vt_symbol
                   then signed_apply acc trade else acc)
                (default 0%float (positions self !! vt_symbol)) trades.
Proof.
  induction trades as [|trade rest IH]; intros self w Hkeys Hsided.
  - exists self. split; reflexivity.
  - apply Forall_cons in Hkeys as [Hkey Hkeys].
    apply Forall_cons in Hsided as [Hdir Hsided].
    apply elem_of_dom in Hkey as [x Hx].
    pose proof (on_trade_run trade self w) as Hstep. rewrite Hx in Hstep.
    cbv zeta in Hstep.
    match type of Hstep with _ = inr (_, ?s, _) => set (self1 := s) in * end.
    destruct (IH self1 w) as (self' & Hrest & Hsum).
    { eapply Forall_impl; [exact Hkeys|]. intros t Ht. simpl in *.
      subst self1. simpl. rewrite dom_insert_lookup_L by eauto. exact Ht. }
    { exact Hsided. }
    exists self'. split.
    + simpl. run_method. rewrite Hstep. exact Hrest.
    + intros vt_symbol. rewrite Hsum. simpl. f_equal.
      subst self1. simpl.
      destruct (String.eqb_spec (trade_vt_symbol trade) vt_symbol) as [<-|Hne].
      * rewrite lookup_insert_eq, Hx. simpl. unfold signed_apply.
        destruct Hdir as [-> | ->]; reflexivity.
      * by rewrite lookup_insert_ne.
Qed.

(** On trades of subscribed symbols the replay ends normally and every
    position read by [get_pos] is the signed sum of the symbol's trades. *)
Lemma on_trades_signed_sum name symbols type trades w :
  Forall (λ trade, trade_vt_symbol trade ∈ symbols) trades →
  Forall sided trades →
  ∃ self',
    on_trades trades (__init__ name symbols type) w = inr (tt, self', w)
    ∧ ∀ vt_symbol,
        get_pos vt_symbol self' w = inr (signed_sum vt_symbol trades, self', w).
Proof.
  intros Hkeys Hsided.
  destruct (on_trades_fold trades (__init__ name symbols type) w)
    as (self' & Hrun & Hsum); [|exact Hsided|].
  - eapply Forall_impl; [exact Hkeys|]. intros t Ht. simpl in *.
    apply elem_of_dom. rewrite init_positions_lookup.
    rewrite bool_decide_eq_true_2 by done. eauto.
  - exists self'. split; [exact Hrun|]. intros vt_symbol.
    pose proof (Hsum vt_symbol) as Hv.
    simpl in Hv. rewrite init_positions_lookup in Hv.
    assert (H0 : default 0%float
              (if bool_decide (vt_symbol ∈ symbols) then Some 0%float
               else (∅ : gmap string float) !! vt_symbol)
            = 0%float) by (case_bool_decide; reflexivity).
    rewrite H0 in Hv.
    unfold get_pos. run_method. unfold signed_sum. by rewrite Hv.
Qed.

(** C2, at a trade of a symbol the strategy did not subscribe:
    [on_trade] raises [KeyError] where the signed sum of the symbol's
    trades is [1.0]. *)
Theorem on_trades_unsubscribed_symbol :
  let trade :=
    Trade.mk "t1" "o1" "ETHUSDT" "BINANCE" "long" "open" 2000%float 1%float 0 in
  let w := mkWorld [] (λ _, 0%float) 0 in
  on_trades [trade] (__init__ "s" ["BTCUSDT.BINANCE"] "spot") w
    = inl (KeyError "ETHUSDT.BINANCE")
  ∧ signed_sum "ETHUSDT.BINANCE" [trade] = 1%float
  ∧ get_pos "ETHUSDT.BINANCE" (__init__ "s" ["BTCUSDT.BINANCE"] "spot") w
    = inr (0%float, __init__ "s" ["BTCUSDT.BINANCE"] "spot", w).
Proof. vm_compute. repeat split. Qed.
End Replay.

(** ** Order submission *)

Section OrderSubmission.
Import CtaTemplate.
Variable float_str : float → string.

Lemma write_log_run msg self w :
  write_log msg self w = inr (tt, self, printed (log_line self msg) w).
Proof. reflexivity. Qed.

(** Every submission prints its line and reads the clock once. *)
Lemma _send_order_run vt_symbol price volume direction offset lock self w :
  _send_order float_str vt_symbol price volume direction offset lock self w =
    inr ("order_" +:+ float_str (clock w (clock_reads w)),
         self,
         mkWorld
           (stdout w ++
              [log_line self
                 ("Send order: " +:+ vt_symbol +:+ " " +:+ direction +:+ " "
                  +:+ offset +:+ " @ " +:+ float_str price
                  +:+ " x" +:+ float_str volume)])
           (clock w) (Datatypes.S (clock_reads w))).
Proof. reflexivity. Qed.

(** C3. While [trading] is false, [buy] and [sell] return the empty order
    id and leave the strategy and the world (output and clock) untouched;
    a submission would have printed a line and read the clock, so none
    took place. *)
Theorem buy_sell_rejected_when_not_trading (self : CtaTemplate.t) (w : World)
    (vt_symbol : string) (price volume : float) (lock : bool) :
  trading self = false →
  buy float_str vt_symbol price volume lock self w = inr ("", self, w)
  ∧ sell float_str vt_symbol price volume lock self w = inr ("", self, w)
  ∧ ∀ direction offset : string,
      ∃ (orderid : string) (w' : World),
        _send_order float_str vt_symbol price volume direction offset lock self w
          = inr (orderid, self, w')
        ∧ length (stdout w') = Datatypes.S (length (stdout w))
        ∧ clock_reads w' = Datatypes.S (clock_reads w).
Proof.
  intros Hoff. split; [|split].
  - unfold buy. run_method. rewrite Hoff. reflexivity.
  - unfold sell. run_method. rewrite Hoff. reflexivity.
  - intros direction offset. rewrite _send_order_run.
    eexists _, _. split; [reflexivity|]. simpl.
    rewrite length_app. simpl. split; [lia|reflexivity].
Qed.

(** C4. On a spot strategy [short] and [cover] return the empty order id
    for every price and volume, whatever the [trading] flag; they return
    normally, print one log line, and change neither the strategy nor the
    clock. *)
Theorem short_cover_rejected_on_spot (self : CtaTemplate.t) (w : World)
    (vt_symbol : string) (price volume : float) (lock : bool) :
  strategy_type self = "spot" →
  short float_str vt_symbol price volume lock self w =
    inr ("", self, printed (log_line self "Short not supported for spot trading") w)
  ∧ cover float_str vt_symbol price volume lock self w =
    inr ("", self, printed (log_line self "Cover not supported for spot trading") w).
Proof.
  intros Hspot. split.
  - unfold short. run_method. rewrite Hspot. reflexivity.
  - unfold cover. run_method. rewrite Hspot. reflexivity.
Qed.

Lemma stdout_last_inj (out : list string) (l1 l2 : string) :
  out ++ [l1] = out ++ [l2] → l1 = l2.
Proof. intros H. apply app_inv_head in H. congruence. Qed.

Lemma string_cons_inj (a : Ascii.ascii) (s1 s2 : string) :
  String a s1 = String a s2 → s1 = s2.
Proof. congruence. Qed.

(** Submissions that differ in the offset print different lines. *)
Lemma _send_order_open_close vt_symbol price volume direction lock self w :
  _send_order float_str vt_symbol price volume direction "open" lock self w ≠
  _send_order float_str vt_symbol price volume direction "close" lock self w.
Proof.
  rewrite !_send_order_run. intros [= Hout].
  apply stdout_last_inj in Hout. unfold log_line in Hout.
  repeat first [ apply String.app_inj in Hout
               | apply string_cons_inj in Hout
               | progress simpl in Hout ].
  discriminate Hout.
Qed.

(** C6. With [trading] on, [sell] on a spot strategy is the submission of
    (short, open), which is not the submission of (short, close); on a
    futures strategy it is the submission of (short, close). The other
    calls of a spot strategy do not submit a close offset either: [buy] is
    the submission of (long, open), and [short] and [cover] return the
    empty order id after one log line. *)
Theorem sell_offset_by_strategy_type (self : CtaTemplate.t) (w : World)
    (vt_symbol : string) (price volume : float) (lock : bool) :
  trading self = true →
  (strategy_type self = "spot" →
     sell float_str vt_symbol price volume lock self w =
       _send_order float_str vt_symbol price volume "short" "open" lock self w
     ∧ sell float_str vt_symbol price volume lock self w ≠
       _send_order float_str vt_symbol price volume "short" "close" lock self w
     ∧ buy float_str vt_symbol price volume lock self w =
       _send_order float_str vt_symbol price volume "long" "open" lock self w
     ∧ short float_str vt_symbol price volume lock self w =
       inr ("", self, printed (log_line self "Short not supported for spot trading") w)
     ∧ cover float_str vt_symbol price volume lock self w =
       inr ("", self, printed (log_line self "Cover not supported for spot trading") w))
  ∧ (strategy_type self = "futures" →
       sell float_str vt_symbol price volume lock self w =
         _send_order float_str vt_symbol price volume "short" "close" lock self w).
Proof.
  intros Hon. split; intros Hty.
  - assert (Hsell : sell float_str vt_symbol price volume lock self w =
      _send_order float_str vt_symbol price volume "short" "open" lock self w).
    { unfold sell. run_method. rewrite Hon, Hty. reflexivity. }
    split; [exact Hsell|]. split; [rewrite Hsell; apply _send_order_open_close|].
    split; [unfold buy; run_method; rewrite Hon; reflexivity|].
    split.
    + unfold short. run_method. rewrite Hty. reflexivity.
    + unfold cover. run_method. rewrite Hty. reflexivity.
  - unfold sell. run_method. rewrite Hon, Hty. reflexivity.
Qed.
End OrderSubmission.

(** ** Which operations touch the positions *)

Ltac keeps_positions_tac :=
  intros self w;
  unfold CtaTemplate.write_log, CtaTemplate._send_order; run_method;
  repeat match goal with
         | |- context [if ?c then _ else _] => destruct c
         end;
  do 3 eexists; split; reflexivity.

Section Frame.
Import CtaTemplate.
Variable float_str : float → string.

(** C7. Each template operation other than [on_trade] returns with the
    positions map unchanged, for every argument and every state;
    [on_trade] does change a recorded position. *)
Theorem only_on_trade_changes_positions :
  keeps_positions on_init
  ∧ keeps_positions on_start
  ∧ keeps_positions on_stop
  ∧ (∀ bar, keeps_positions (on_bar bar))
  ∧ (∀ tick, keeps_positions (on_tick tick))
  ∧ (∀ order, keeps_positions (on_order order))
  ∧ (∀ vt_symbol price volume lock,
       keeps_positions (buy float_str vt_symbol price volume lock))
  ∧ (∀ vt_symbol price volume lock,
       keeps_positions (sell float_str vt_symbol price volume lock))
  ∧ (∀ vt_symbol price volume lock,
       keeps_positions (short float_str vt_symbol price volume lock))
  ∧ (∀ vt_symbol price volume lock,
       keeps_positions (cover float_str vt_symbol price volume lock))
  ∧ (∀ vt_orderid, keeps_positions (cancel_order vt_orderid))
  ∧ keeps_positions cancel_all
  ∧ (∀ vt_symbol, keeps_positions (get_pos vt_symbol))
  ∧ (∃ (trade : Trade.t) (self self' : CtaTemplate.t) (w w' : World),
       on_trade trade self w = inr (tt, self', w')
       ∧ positions self' ≠ positions self).
Proof.
  repeat match goal with |- _ ∧ _ => split end.
  - unfold on_init. keeps_positions_tac.
  - unfold on_start. keeps_positions_tac.
  - unfold on_stop. keeps_positions_tac.
  - intros bar. unfold on_bar. keeps_positions_tac.
  - intros tick. unfold on_tick. keeps_positions_tac.
  - intros order. unfold on_order. keeps_positions_tac.
  - intros vt_symbol price volume lock. unfold buy. keeps_positions_tac.
  - intros vt_symbol price volume lock. unfold sell. keeps_positions_tac.
  - intros vt_symbol price volume lock. unfold short. keeps_positions_tac.
  - intros vt_symbol price volume lock. unfold cover. keeps_positions_tac.
  - intros vt_orderid. unfold cancel_order. keeps_positions_tac.
  - unfold cancel_all. keeps_positions_tac.
  - intros vt_symbol. unfold get_pos. keeps_positions_tac.
  - exists (Trade.mk "t1" "o1" "BTCUSDT" "BINANCE" "long" "open"
                     50000%float 1%float 0).
    exists (__init__ "s" ["BTCUSDT.BINANCE"] "spot").
    eexists. exists (mkWorld [] (λ _, 0%float) 0). eexists.
    split; [vm_compute; reflexivity|].
    intros Heq. apply (f_equal (λ m, m !! "BTCUSDT.BINANCE")) in Heq.
    vm_compute in Heq. discriminate Heq.
Qed.

(** The remaining template methods do not touch the positions either. *)
Lemma helpers_keep_positions :
  (∀ msg, keeps_positions (write_log msg))
  ∧ (∀ days interval, keeps_positions (load_bars days interval))
  ∧ (∀ bars, keeps_positions (on_bars bars))
  ∧ keeps_positions put_event
  ∧ (∀ vt_symbol price volume direction offset lock,
       keeps_positions
         (_send_order float_str vt_symbol price volume direction offset lock)).
Proof.
  repeat match goal with |- _ ∧ _ => split end.
  - intros msg. keeps_positions_tac.
  - intros days interval. unfold load_bars. keeps_positions_tac.
  - intros bars. unfold on_bars. keeps_positions_tac.
  - unfold put_event. keeps_positions_tac.
  - intros vt_symbol price volume direction offset lock. keeps_positions_tac.
Qed.
End Frame.

(** ** The lifecycle hooks and the [trading] flag *)

Section Lifecycle.


End Lifecycle.

Section GridFacts.
Variable float_str : float → string.

(** The override in [GridStrategy] updates the base positions exactly as
    the inherited [on_trade] does; the reverse order it then places leaves
    them alone. *)
Lemma grid_on_trade_positions (trade : Trade.t) (self : GridStrategy.t)
    (w : World) (base' : CtaTemplate.t) :
  CtaTemplate.on_trade trade (GridStrategy.base self) w = inr (tt, base', w) →
  ∃ (self' : GridStrategy.t) (w' : World),
    GridStrategy.on_trade float_str trade self w = inr (tt, self', w')
    ∧ CtaTemplate.positions (GridStrategy.base self') = CtaTemplate.positions base'.
Proof.
  intros Hbase.
  unfold GridStrategy.on_trade, GridStrategy.sell, GridStrategy.buy,
    GridStrategy.super.
  run_method. rewrite Hbase. simpl.
  unfold CtaTemplate.sell, CtaTemplate.buy, CtaTemplate._send_order,
    CtaTemplate.write_log.
  run_method. simpl.
  repeat match goal with
         | |- context [if ?c then _ else _] => destruct c; simpl
         end;
    do 2 eexists; split; reflexivity.
Qed.

Lemma grid_on_trade_raises (trade : Trade.t) (self : GridStrategy.t)
    (w : World) (e : exn) :
  CtaTemplate.on_trade trade (GridStrategy.base self) w = inl e →
  GridStrategy.on_trade float_str trade self w = inl e.
Proof.
  intros Hbase. unfold GridStrategy.on_trade, GridStrategy.super.
  run_method. rewrite Hbase. reflexivity.
Qed.
End GridFacts.

(** * More properties of the template and of its callers *)

(** Unfolds the operations of both kinds of methods. *)
Ltac run_methodx :=
  unfold mbind, mret, MX_bind, MX_ret, liftx, outcome, M_bind, M_ret, bind,
    ret, raise, get_self, set_self, print, datetime_now_timestamp,
    inherited in *.

Section TemplateCallers.
Import CtaTemplate.
Variable float_str : float → string.

Lemma set_positions_same (self : CtaTemplate.t) :
  set_positions (positions self) self = self.
Proof. destruct self. reflexivity. Qed.

Lemma perform_effect (c : template_call) (self self' : CtaTemplate.t)
    (w w' : World) :
  perform float_str c self w = inr (tt, self', w') →
  self' = set_positions (positions self') self
  ∧ dom (positions self') = dom (positions self)
  ∧ (trading self = false → clock_reads w' = clock_reads w).
Proof.
  destruct c; simpl;
    try (unfold on_init, on_start, on_stop, on_tick, on_bar, on_bars, on_order,
           buy, sell, short, cover, cancel_order, cancel_all, get_pos,
           load_bars, put_event, _send_order, write_log;
         run_method;
         repeat match goal with
                | |- context [if ?c then _ else _] => destruct c eqn:?
                end;
         simpl; intros [= <- <-]; simpl;
         rewrite set_positions_same;
         repeat split; try reflexivity; intros Hoff;
         repeat match goal with
                | H : negb _ = false |- _ => apply negb_false_iff in H
                end;
         congruence).
  intros Hrun. pose proof Hrun as Hkeys.
  apply on_trade_keys in Hkeys as [Hdom ->].
  rewrite on_trade_run in Hrun.
  destruct (positions self !! trade_vt_symbol trade); [|discriminate].
  cbv zeta in Hrun. injection Hrun as <-.
  split; [reflexivity|]. split; [exact Hdom|reflexivity].
Qed.

(** X1. Whatever methods of the template are called, in whatever order and
    with whatever arguments, a run that completes has changed nothing of
    the strategy object but the values of its recorded positions: name,
    symbols, type, [inited], [trading], parameters and variables are as
    before, and so is the set of symbols with a position. *)
Theorem template_calls_keep_configuration (calls : list template_call)
    (self self' : CtaTemplate.t) (w w' : World) :
  perform_all float_str calls self w = inr (tt, self', w') →
  self' = set_positions (positions self') self
  ∧ dom (positions self') = dom (positions self).
Proof.
  revert self w. induction calls as [|c calls IH]; intros self w; simpl.
  - run_method. intros [= <- <-]. by rewrite set_positions_same.
  - run_method.
    destruct (perform float_str c self w) as [e|[[[] self1] w1]] eqn:Hc;
      [discriminate|].
    intros Hrest. apply perform_effect in Hc as (Hself1 & Hdom1 & _).
    apply IH in Hrest as (Hself' & Hdom').
    split; [|by rewrite Hdom', Hdom1].
    rewrite Hself', Hself1. reflexivity.
Qed.

(** X2. A strategy whose [trading] flag is off never sends an order through
    the template's own methods: after any completed sequence of calls the
    flag is still off and the clock, which every submission reads, has not
    been read. *)
Theorem template_never_starts_trading (calls : list template_call)
    (self self' : CtaTemplate.t) (w w' : World) :
  trading self = false →
  perform_all float_str calls self w = inr (tt, self', w') →
  trading self' = false ∧ clock_reads w' = clock_reads w.
Proof.
  revert self w. induction calls as [|c calls IH]; intros self w Hoff; simpl.
  - run_method. intros [= <- <-]. by split.
  - run_method.
    destruct (perform float_str c self w) as [e|[[[] self1] w1]] eqn:Hc;
      [discriminate|].
    intros Hrest. apply perform_effect in Hc as (Hself1 & _ & Hclock).
    assert (Hoff1 : trading self1 = false) by (rewrite Hself1; exact Hoff).
    apply (IH self1 w1 Hoff1) in Hrest as (Hoff' & Hclock').
    split; [exact Hoff'|]. rewrite Hclock'. by apply Hclock.
Qed.

(** X3. An order call answers the empty string exactly when it refuses the
    order: [buy] and [sell] when [trading] is off, [short] and [cover]
    when the strategy is a spot one or [trading] is off. Every accepted
    order gets an id that starts with [order_]. *)
Theorem empty_order_id_means_rejected (self : CtaTemplate.t) (w : World)
    (vt_symbol : string) (price volume : float) (lock : bool) :
  (∃ id w', buy float_str vt_symbol price volume lock self w = inr (id, self, w')
            ∧ (id = "" ↔ trading self = false)
            ∧ (id ≠ "" → ∃ stamp, id = "order_" +:+ stamp))
  ∧ (∃ id w', sell float_str vt_symbol price volume lock self w = inr (id, self, w')
              ∧ (id = "" ↔ trading self = false)
              ∧ (id ≠ "" → ∃ stamp, id = "order_" +:+ stamp))
  ∧ (∃ id w', short float_str vt_symbol price volume lock self w = inr (id, self, w')
              ∧ (id = "" ↔ strategy_type self = "spot" ∨ trading self = false)
              ∧ (id ≠ "" → ∃ stamp, id = "order_" +:+ stamp))
  ∧ (∃ id w', cover float_str vt_symbol price volume lock self w = inr (id, self, w')
              ∧ (id = "" ↔ strategy_type self = "spot" ∨ trading self = false)
              ∧ (id ≠ "" → ∃ stamp, id = "order_" +:+ stamp)).
Proof.
  repeat match goal with |- _ ∧ _ => split end;
    unfold buy, sell, short, cover, _send_order, write_log; run_method;
    destruct (trading self) eqn:Hon; simpl;
    try destruct (String.eqb_spec (strategy_type self) "spot") as [Hspot|Hspot];
    simpl; do 2 eexists; (split; [reflexivity|]); split;
    try (split; [discriminate | intros ?; intuition congruence]);
    try (split; [intros _; auto | reflexivity]);
    try (intros Hne; first [by destruct Hne | eexists; reflexivity]).
Qed.

(** X4. The replay stops at the first trade whose [symbol.exchange] key has
    no recorded position, with the [KeyError] of that key, however many
    trades of recorded symbols precede it and whatever follows. *)
Theorem on_trades_stops_at_unknown_symbol (before after : list Trade.t)
    (trade : Trade.t) (self : CtaTemplate.t) (w : World) :
  Forall (λ t, trade_vt_symbol t ∈ dom (positions self)) before →
  trade_vt_symbol trade ∉ dom (positions self) →
  on_trades (before ++ trade :: after) self w
    = inl (KeyError (trade_vt_symbol trade)).
Proof.
  revert self. induction before as [|t before IH]; intros self Hknown Hnew.
  - simpl. run_method. rewrite on_trade_run.
    apply not_elem_of_dom in Hnew. by rewrite Hnew.
  - apply Forall_cons in Hknown as [Ht Hknown].
    apply elem_of_dom in Ht as [x Hx].
    simpl. run_method.
    pose proof (on_trade_run t self w) as Hrun. rewrite Hx in Hrun.
    cbv zeta in Hrun. rewrite Hrun.
    apply IH.
    + eapply Forall_impl; [exact Hknown|]. intros t' Ht'. simpl in *.
      rewrite dom_insert_lookup_L by eauto. exact Ht'.
    + simpl. rewrite dom_insert_lookup_L by eauto. exact Hnew.
Qed.

End TemplateCallers.

(** * The grid of [GridStrategy] *)

Section GridTicks.
Import GridStrategy.
Variable float_str : float → string.

Lemma grid_set_base_same (self : GridStrategy.t) :
  set_base (base self) self = self.
Proof. destruct self. reflexivity. Qed.

Lemma grid_set_last_price_same (self : GridStrategy.t) :
  set_last_price (last_price self) self = self.
Proof. destruct self. reflexivity. Qed.

(** What one pass of the first loop does when it returns. *)
Lemma place_buy_cases vt_symbol current_price i self w self' w' :
  place_buy float_str vt_symbol current_price i self w = inr (tt, self', w') →
  ∃ f : float,
    float_of_int i = Some f
    ∧ ((self' = self ∧ w' = w
        ∧ (is_Some (buy_orders self !! float_str (current_price - f * grid_size self))
           ∨ CtaTemplate.trading (base self) = false))
       ∨ (CtaTemplate.trading (base self) = true
          ∧ buy_orders self !! float_str (current_price - f * grid_size self) = None
          ∧ (∃ id : string,
               self' = set_buy_orders
                         (<[float_str (current_price - f * grid_size self) := id]>
                            (buy_orders self)) self)
          ∧ clock_reads w' = Datatypes.S (clock_reads w))).
Proof.
  unfold place_buy, int_mul_float, buy, super, CtaTemplate.buy,
    CtaTemplate._send_order, CtaTemplate.write_log.
  run_methodx.
  destruct (float_of_int i) as [f|]; [|discriminate].
  intros Hrun. exists f. split; [reflexivity|].
  destruct (buy_orders self !! float_str (current_price - f * grid_size self))
    as [old|] eqn:Hkey.
  - injection Hrun as <- <-. left. eauto.
  - destruct (CtaTemplate.trading (base self)) eqn:Hon; simpl in Hrun.
    + injection Hrun as <- <-. right. rewrite grid_set_base_same.
      repeat split; eauto.
    + injection Hrun as <- <-. rewrite grid_set_base_same. left. eauto.
Qed.

Lemma place_buy_returns vt_symbol current_price i f self w :
  float_of_int i = Some f →
  ∃ self' w',
    place_buy float_str vt_symbol current_price i self w = inr (tt, self', w').
Proof.
  intros Hf.
  unfold place_buy, int_mul_float, buy, super, CtaTemplate.buy,
    CtaTemplate._send_order, CtaTemplate.write_log.
  run_methodx. rewrite Hf.
  destruct (buy_orders self !! _); [eauto|].
  destruct (CtaTemplate.trading (base self)); simpl; eauto.
Qed.

Lemma place_buy_skips vt_symbol current_price i f self w :
  float_of_int i = Some f →
  is_Some (buy_orders self !! float_str (current_price - f * grid_size self))
  ∨ CtaTemplate.trading (base self) = false →
  place_buy float_str vt_symbol current_price i self w = inr (tt, self, w).
Proof.
  intros Hf Hskip.
  unfold place_buy, int_mul_float, buy, super, CtaTemplate.buy,
    CtaTemplate._send_order, CtaTemplate.write_log.
  run_methodx. rewrite Hf.
  destruct (buy_orders self !! _) as [old|] eqn:Hkey; [reflexivity|].
  destruct Hskip as [[old Hold]|Hoff]; [discriminate|].
  rewrite Hoff. simpl. by rewrite grid_set_base_same.
Qed.

(** The first loop, over any list of levels. *)
Lemma buy_loop_effect vt_symbol current_price (levels : list Z) :
  ∀ self w self' w',
    for_each levels (place_buy float_str vt_symbol current_price) self w
      = inr (tt, self', w') →
    Forall (λ i, is_Some (float_of_int i)) levels
    ∧ base self' = base self
    ∧ grid_size self' = grid_size self
    ∧ grid_num self' = grid_num self
    ∧ order_size self' = order_size self
    ∧ last_price self' = last_price self
    ∧ sell_orders self' = sell_orders self
    ∧ buy_orders self ⊆ buy_orders self'
    ∧ (CtaTemplate.trading (base self) = true →
       ∀ i f, i ∈ levels → float_of_int i = Some f →
              is_Some (buy_orders self' !! float_str (current_price - f * grid_size self)))
    ∧ (CtaTemplate.trading (base self) = false → self' = self ∧ w' = w)
    ∧ (clock_reads w ≤ clock_reads w' ≤ clock_reads w + length levels)%nat.
Proof.
  induction levels as [|i levels IH]; intros self w self' w' Hrun.
  - simpl in Hrun. run_methodx. injection Hrun as <- <-.
    repeat split; try done; [|simpl; lia].
    intros _ i f Hin. by apply elem_of_nil in Hin.
  - simpl in Hrun. unfold mbind, MX_bind in Hrun.
    destruct (place_buy float_str vt_symbol current_price i self w)
      as [e|[[[] self1] w1]] eqn:Hbody; [discriminate|].
    apply IH in Hrun
      as (Hconv & Hbase & Hgs & Hgn & Hos & Hlp & Hsell & Hsub & Hcover & Hidle & Hclock).
    apply place_buy_cases in Hbody as (f & Hf & Hcase).
    assert (Hstep : base self1 = base self ∧ grid_size self1 = grid_size self
                    ∧ grid_num self1 = grid_num self
                    ∧ order_size self1 = order_size self
                    ∧ last_price self1 = last_price self
                    ∧ sell_orders self1 = sell_orders self
                    ∧ buy_orders self ⊆ buy_orders self1
                    ∧ (CtaTemplate.trading (base self) = true →
                       is_Some (buy_orders self1
                                  !! float_str (current_price - f * grid_size self)))
                    ∧ (CtaTemplate.trading (base self) = false → self1 = self ∧ w1 = w)
                    ∧ (clock_reads w ≤ clock_reads w1 ≤ Datatypes.S (clock_reads w))%nat).
    { destruct Hcase as [(-> & -> & Hskip)|(Hon & Hnone & (id & ->) & Hclk)].
      - repeat split; try done; try lia.
        intros Hon. destruct Hskip as [Hsome|Hoff]; [done|congruence].
      - simpl. repeat split; try done; try lia.
        + by apply insert_subseteq.
        + intros _. rewrite lookup_insert_eq. eauto.
        + congruence. + congruence. }
    destruct Hstep as (Hb1 & Hgs1 & Hgn1 & Hos1 & Hlp1 & Hs1 & Hsub1 & Hc1 & Hi1 & Hk1).
    split; [constructor; [by rewrite Hf|exact Hconv]|].
    split; [congruence|]. split; [congruence|]. split; [congruence|].
    split; [congruence|]. split; [congruence|]. split; [congruence|].
    split; [by etrans|]. split; [|split].
    + intros Hon j g Hin Hg.
      assert (Hon1 : CtaTemplate.trading (base self1) = true) by (by rewrite Hb1).
      apply elem_of_cons in Hin as [->|Hin].
      * assert (g = f) as -> by congruence.
        destruct (Hc1 Hon) as [id Hid].
        eapply lookup_weaken_is_Some; [eauto|exact Hsub].
      * rewrite <- Hgs1. exact (Hcover Hon1 j g Hin Hg).
    + intros Hoff.
      assert (Hoff1 : CtaTemplate.trading (base self1) = false) by (by rewrite Hb1).
      destruct (Hi1 Hoff) as [-> ->]. exact (Hidle Hoff1).
    + simpl. lia.
Qed.

Lemma buy_loop_returns vt_symbol current_price (levels : list Z) :
  Forall (λ i, is_Some (float_of_int i)) levels →
  ∀ self w, ∃ self' w',
    for_each levels (place_buy float_str vt_symbol current_price) self w
      = inr (tt, self', w').
Proof.
  induction 1 as [|i levels [f Hf] _ IH]; intros self w.
  - simpl. run_methodx. eauto.
  - destruct (place_buy_returns vt_symbol current_price i f self w Hf)
      as (self1 & w1 & Hbody).
    destruct (IH self1 w1) as (self' & w' & Hrest).
    exists self', w'. simpl. unfold mbind, MX_bind. by rewrite Hbody.
Qed.

Lemma buy_loop_skips vt_symbol current_price (levels : list Z) self w :
  Forall (λ i, ∃ f, float_of_int i = Some f
                    ∧ (is_Some (buy_orders self
                                  !! float_str (current_price - f * grid_size self))
                       ∨ CtaTemplate.trading (base self) = false)) levels →
  for_each levels (place_buy float_str vt_symbol current_price) self w
    = inr (tt, self, w).
Proof.
  induction 1 as [|i levels (f & Hf & Hskip) _ IH].
  - reflexivity.
  - simpl. unfold mbind, MX_bind.
    by rewrite (place_buy_skips vt_symbol current_price i f self w Hf Hskip).
Qed.

(** What one pass of the second loop does when it returns. *)
Lemma place_sell_cases vt_symbol current_price i self w self' w' :
  place_sell float_str vt_symbol current_price i self w = inr (tt, self', w') →
  ∃ f : float,
    float_of_int i = Some f
    ∧ ((self' = self ∧ w' = w
        ∧ (is_Some (sell_orders self !! float_str (current_price + f * grid_size self))
           ∨ CtaTemplate.trading (base self) = false))
       ∨ (CtaTemplate.trading (base self) = true
          ∧ sell_orders self !! float_str (current_price + f * grid_size self) = None
          ∧ (∃ id : string,
               self' = set_sell_orders
                         (<[float_str (current_price + f * grid_size self) := id]>
                            (sell_orders self)) self)
          ∧ clock_reads w' = Datatypes.S (clock_reads w))).
Proof.
  unfold place_sell, int_mul_float, sell, super, CtaTemplate.sell,
    CtaTemplate._send_order, CtaTemplate.write_log.
  run_methodx.
  destruct (float_of_int i) as [f|]; [|discriminate].
  intros Hrun. exists f. split; [reflexivity|].
  destruct (sell_orders self !! float_str (current_price + f * grid_size self))
    as [old|] eqn:Hkey.
  - injection Hrun as <- <-. left. eauto.
  - destruct (CtaTemplate.trading (base self)) eqn:Hon; simpl in Hrun.
    + injection Hrun as <- <-. right. rewrite grid_set_base_same.
      repeat split; eauto.
    + injection Hrun as <- <-. rewrite grid_set_base_same. left. eauto.
Qed.

Lemma place_sell_returns vt_symbol current_price i f self w :
  float_of_int i = Some f →
  ∃ self' w',
    place_sell float_str vt_symbol current_price i self w = inr (tt, self', w').
Proof.
  intros Hf.
  unfold place_sell, int_mul_float, sell, super, CtaTemplate.sell,
    CtaTemplate._send_order, CtaTemplate.write_log.
  run_methodx. rewrite Hf.
  destruct (sell_orders self !! _); [eauto|].
  destruct (CtaTemplate.trading (base self)); simpl; eauto.
Qed.

Lemma place_sell_skips vt_symbol current_price i f self w :
  float_of_int i = Some f →
  is_Some (sell_orders self !! float_str (current_price + f * grid_size self))
  ∨ CtaTemplate.trading (base self) = false →
  place_sell float_str vt_symbol current_price i self w = inr (tt, self, w).
Proof.
  intros Hf Hskip.
  unfold place_sell, int_mul_float, sell, super, CtaTemplate.sell,
    CtaTemplate._send_order, CtaTemplate.write_log.
  run_methodx. rewrite Hf.
  destruct (sell_orders self !! _) as [old|] eqn:Hkey; [reflexivity|].
  destruct Hskip as [[old Hold]|Hoff]; [discriminate|].
  rewrite Hoff. simpl. by rewrite grid_set_base_same.
Qed.

(** The second loop, over any list of levels. *)
Lemma sell_loop_effect vt_symbol current_price (levels : list Z) :
  ∀ self w self' w',
    for_each levels (place_sell float_str vt_symbol current_price) self w
      = inr (tt, self', w') →
    Forall (λ i, is_Some (float_of_int i)) levels
    ∧ base self' = base self
    ∧ grid_size self' = grid_size self
    ∧ grid_num self' = grid_num self
    ∧ order_size self' = order_size self
    ∧ last_price self' = last_price self
    ∧ buy_orders self' = buy_orders self
    ∧ sell_orders self ⊆ sell_orders self'
    ∧ (CtaTemplate.trading (base self) = true →
       ∀ i f, i ∈ levels → float_of_int i = Some f →
              is_Some (sell_orders self' !! float_str (current_price + f * grid_size self)))
    ∧ (CtaTemplate.trading (base self) = false → self' = self ∧ w' = w)
    ∧ (clock_reads w ≤ clock_reads w' ≤ clock_reads w + length levels)%nat.
Proof.
  induction levels as [|i levels IH]; intros self w self' w' Hrun.
  - simpl in Hrun. run_methodx. injection Hrun as <- <-.
    repeat split; try done; [|simpl; lia].
    intros _ i f Hin. by apply elem_of_nil in Hin.
  - simpl in Hrun. unfold mbind, MX_bind in Hrun.
    destruct (place_sell float_str vt_symbol current_price i self w)
      as [e|[[[] self1] w1]] eqn:Hbody; [discriminate|].
    apply IH in Hrun
      as (Hconv & Hbase & Hgs & Hgn & Hos & Hlp & Hsell & Hsub & Hcover & Hidle & Hclock).
    apply place_sell_cases in Hbody as (f & Hf & Hcase).
    assert (Hstep : base self1 = base self ∧ grid_size self1 = grid_size self
                    ∧ grid_num self1 = grid_num self
                    ∧ order_size self1 = order_size self
                    ∧ last_price self1 = last_price self
                    ∧ buy_orders self1 = buy_orders self
                    ∧ sell_orders self ⊆ sell_orders self1
                    ∧ (CtaTemplate.trading (base self) = true →
                       is_Some (sell_orders self1
                                  !! float_str (current_price + f * grid_size self)))
                    ∧ (CtaTemplate.trading (base self) = false → self1 = self ∧ w1 = w)
                    ∧ (clock_reads w ≤ clock_reads w1 ≤ Datatypes.S (clock_reads w))%nat).
    { destruct Hcase as [(-> & -> & Hskip)|(Hon & Hnone & (id & ->) & Hclk)].
      - repeat split; try done; try lia.
        intros Hon. destruct Hskip as [Hsome|Hoff]; [done|congruence].
      - simpl. repeat split; try done; try lia.
        + by apply insert_subseteq.
        + intros _. rewrite lookup_insert_eq. eauto.
        + congruence. + congruence. }
    destruct Hstep as (Hb1 & Hgs1 & Hgn1 & Hos1 & Hlp1 & Hs1 & Hsub1 & Hc1 & Hi1 & Hk1).
    split; [constructor; [by rewrite Hf|exact Hconv]|].
    split; [congruence|]. split; [congruence|]. split; [congruence|].
    split; [congruence|]. split; [congruence|]. split; [congruence|].
    split; [by etrans|]. split; [|split].
    + intros Hon j g Hin Hg.
      assert (Hon1 : CtaTemplate.trading (base self1) = true) by (by rewrite Hb1).
      apply elem_of_cons in Hin as [->|Hin].
      * assert (g = f) as -> by congruence.
        destruct (Hc1 Hon) as [id Hid].
        eapply lookup_weaken_is_Some; [eauto|exact Hsub].
      * rewrite <- Hgs1. exact (Hcover Hon1 j g Hin Hg).
    + intros Hoff.
      assert (Hoff1 : CtaTemplate.trading (base self1) = false) by (by rewrite Hb1).
      destruct (Hi1 Hoff) as [-> ->]. exact (Hidle Hoff1).
    + simpl. lia.
Qed.

Lemma sell_loop_returns vt_symbol current_price (levels : list Z) :
  Forall (λ i, is_Some (float_of_int i)) levels →
  ∀ self w, ∃ self' w',
    for_each levels (place_sell float_str vt_symbol current_price) self w
      = inr (tt, self', w').
Proof.
  induction 1 as [|i levels [f Hf] _ IH]; intros self w.
  - simpl. run_methodx. eauto.
  - destruct (place_sell_returns vt_symbol current_price i f self w Hf)
      as (self1 & w1 & Hbody).
    destruct (IH self1 w1) as (self' & w' & Hrest).
    exists self', w'. simpl. unfold mbind, MX_bind. by rewrite Hbody.
Qed.

Lemma sell_loop_skips vt_symbol current_price (levels : list Z) self w :
  Forall (λ i, ∃ f, float_of_int i = Some f
                    ∧ (is_Some (sell_orders self
                                  !! float_str (current_price + f * grid_size self))
                       ∨ CtaTemplate.trading (base self) = false)) levels →
  for_each levels (place_sell float_str vt_symbol current_price) self w
    = inr (tt, self, w).
Proof.
  induction 1 as [|i levels (f & Hf & Hskip) _ IH].
  - reflexivity.
  - simpl. unfold mbind, MX_bind.
    by rewrite (place_sell_skips vt_symbol current_price i f self w Hf Hskip).
Qed.

Lemma elem_of_py_range_levels (n i : Z) :
  i ∈ py_range 1 (n + 1) ↔ (1 ≤ i ≤ n)%Z.
Proof. unfold py_range. rewrite elem_of_seqZ. lia. Qed.

Lemma length_py_range_levels (n : Z) :
  length (py_range 1 (n + 1)) = Z.to_nat n.
Proof. unfold py_range. rewrite length_seqZ. f_equal. lia. Qed.

Lemma levels_convert_range (n : Z) :
  levels_convert n ↔ Forall (λ i, is_Some (float_of_int i)) (py_range 1 (n + 1)).
Proof.
  rewrite Forall_forall. unfold levels_convert.
  split; intros Hconv i Hi; apply Hconv; by apply elem_of_py_range_levels.
Qed.

(** What [on_tick] has done when it returns. *)
Lemma on_tick_effect (tick : Tick.t) (self self' : GridStrategy.t) (w w' : World) :
  on_tick float_str tick self w = inr (tt, self', w') →
  levels_convert (grid_num self)
  ∧ base self' = base self
  ∧ grid_size self' = grid_size self
  ∧ grid_num self' = grid_num self
  ∧ order_size self' = order_size self
  ∧ last_price self' = Tick.last_price tick
  ∧ buy_orders self ⊆ buy_orders self'
  ∧ sell_orders self ⊆ sell_orders self'
  ∧ (CtaTemplate.trading (base self) = true →
     ∀ i f, (1 ≤ i ≤ grid_num self)%Z → float_of_int i = Some f →
       is_Some (buy_orders self'
                  !! float_str (Tick.last_price tick - f * grid_size self))
       ∧ is_Some (sell_orders self'
                    !! float_str (Tick.last_price tick + f * grid_size self)))
  ∧ (CtaTemplate.trading (base self) = false →
     self' = set_last_price (Tick.last_price tick) self ∧ w' = w)
  ∧ (clock_reads w ≤ clock_reads w'
     ≤ clock_reads w + 2 * Z.to_nat (grid_num self))%nat.
Proof.
  unfold on_tick, check_grid_orders.
  unfold mbind at 1, MX_bind at 1, liftx at 1, set_self at 1.
  set (self0 := set_last_price (Tick.last_price tick) self).
  unfold mbind at 1, MX_bind at 1, liftx at 1, get_self at 1.
  unfold mbind at 1, MX_bind at 1.
  destruct (for_each (py_range 1 (grid_num self0 + 1)) _ self0 w)
    as [e|[[[] self1] w1]] eqn:Hbuy; [discriminate|].
  unfold mbind at 1, MX_bind at 1, liftx at 1, get_self at 1.
  intros Hsell.
  apply buy_loop_effect in Hbuy
    as (Hconv & Hb1 & Hgs1 & Hgn1 & Hos1 & Hlp1 & Hs1 & Hsub1 & Hcov1 & Hidle1 & Hclk1).
  apply sell_loop_effect in Hsell
    as (_ & Hb2 & Hgs2 & Hgn2 & Hos2 & Hlp2 & Hs2 & Hsub2 & Hcov2 & Hidle2 & Hclk2).
  rewrite !length_py_range_levels in *. rewrite Hgn1 in *.
  change (grid_num self0) with (grid_num self) in *.
  change (grid_size self0) with (grid_size self) in *.
  change (base self0) with (base self) in *.
  change (buy_orders self0) with (buy_orders self) in *.
  change (sell_orders self0) with (sell_orders self) in *.
  change (order_size self0) with (order_size self) in *.
  change (last_price self0) with (Tick.last_price tick) in *.
  split; [by apply levels_convert_range|].
  split; [congruence|]. split; [congruence|]. split; [congruence|].
  split; [congruence|]. split; [rewrite Hlp2, Hlp1; reflexivity|].
  split; [by rewrite Hs2|]. split; [by rewrite <- Hs1|].
  split; [|split].
  - intros Hon i f Hi Hf. apply elem_of_py_range_levels in Hi. split.
    + rewrite Hs2. by eapply Hcov1.
    + rewrite <- Hgs1. eapply Hcov2; [by rewrite Hb1|exact Hi|exact Hf].
  - intros Hoff. destruct (Hidle1 Hoff) as [-> ->].
    destruct (Hidle2 Hoff) as [-> ->]. by split.
  - lia.
Qed.

Lemma on_tick_returns (tick : Tick.t) (self : GridStrategy.t) (w : World) :
  levels_convert (grid_num self) →
  ∃ self' w', on_tick float_str tick self w = inr (tt, self', w').
Proof.
  intros Hconv. apply levels_convert_range in Hconv.
  unfold on_tick, check_grid_orders.
  unfold mbind at 1, MX_bind at 1, liftx at 1, set_self at 1.
  set (self0 := set_last_price (Tick.last_price tick) self).
  unfold mbind at 1, MX_bind at 1, liftx at 1, get_self at 1.
  unfold mbind at 1, MX_bind at 1.
  change (grid_num self0) with (grid_num self).
  destruct (buy_loop_returns
              (Tick.symbol tick +:+ "." +:+ Tick.exchange tick)
              (Tick.last_price tick) _ Hconv self0 w)
    as (self1 & w1 & Hbuy).
  rewrite Hbuy.
  unfold mbind at 1, MX_bind at 1, liftx at 1, get_self at 1.
  apply buy_loop_effect in Hbuy as (_ & _ & _ & Hgn1 & _).
  rewrite Hgn1. change (grid_num self0) with (grid_num self).
  by apply sell_loop_returns.
Qed.

(** A tick whose grid levels are all already recorded, or that reaches a
    strategy that is not trading, only updates [last_price]. *)
Lemma on_tick_skips (tick : Tick.t) (self : GridStrategy.t) (w : World) :
  (∀ i, (1 ≤ i ≤ grid_num self)%Z →
     ∃ f, float_of_int i = Some f
          ∧ ((is_Some (buy_orders self
                         !! float_str (Tick.last_price tick - f * grid_size self))
              ∧ is_Some (sell_orders self
                           !! float_str (Tick.last_price tick + f * grid_size self)))
             ∨ CtaTemplate.trading (base self) = false)) →
  on_tick float_str tick self w
    = inr (tt, set_last_price (Tick.last_price tick) self, w).
Proof.
  intros Hall.
  unfold on_tick, check_grid_orders.
  unfold mbind at 1, MX_bind at 1, liftx at 1, set_self at 1.
  set (self0 := set_last_price (Tick.last_price tick) self).
  unfold mbind at 1, MX_bind at 1, liftx at 1, get_self at 1.
  unfold mbind at 1, MX_bind at 1.
  rewrite buy_loop_skips.
  - unfold mbind at 1, MX_bind at 1, liftx at 1, get_self at 1.
    apply sell_loop_skips. apply Forall_forall. intros i Hi.
    apply elem_of_py_range_levels in Hi.
    destruct (Hall i Hi) as (f & Hf & Hcase). exists f. split; [exact Hf|].
    destruct Hcase as [[_ Hsell]|Hoff]; [left; exact Hsell|right; exact Hoff].
  - apply Forall_forall. intros i Hi.
    apply elem_of_py_range_levels in Hi.
    destruct (Hall i Hi) as (f & Hf & Hcase). exists f. split; [exact Hf|].
    destruct Hcase as [[Hbuy _]|Hoff]; [left; exact Hbuy|right; exact Hoff].
Qed.

(** X5. A tick that reaches a trading grid strategy whose levels convert
    to floats is handled without error, and afterwards every grid level
    has an order id on record: the price [grid_size * i] below the tick
    price in [buy_orders], the price [grid_size * i] above it in
    [sell_orders], for each [i] from 1 to [grid_num]. Ids already on
    record are kept, at most [grid_num] buys and [grid_num] sells are
    submitted, and nothing but the two maps and [last_price] changes. *)
Theorem on_tick_places_grid (tick : Tick.t) (self : GridStrategy.t) (w : World) :
  levels_convert (grid_num self) →
  CtaTemplate.trading (base self) = true →
  ∃ self' w',
    on_tick float_str tick self w = inr (tt, self', w')
    ∧ base self' = base self
    ∧ last_price self' = Tick.last_price tick
    ∧ buy_orders self ⊆ buy_orders self'
    ∧ sell_orders self ⊆ sell_orders self'
    ∧ (∀ i f, (1 ≤ i ≤ grid_num self)%Z → float_of_int i = Some f →
         is_Some (buy_orders self'
                    !! float_str (Tick.last_price tick - f * grid_size self))
         ∧ is_Some (sell_orders self'
                      !! float_str (Tick.last_price tick + f * grid_size self)))
    ∧ (clock_reads w' ≤ clock_reads w + 2 * Z.to_nat (grid_num self))%nat.
Proof.
  intros Hconv Hon.
  destruct (on_tick_returns tick self w Hconv) as (self' & w' & Hrun).
  exists self', w'. split; [exact Hrun|].
  apply on_tick_effect in Hrun
    as (_ & Hb & _ & _ & _ & Hlp & Hbuy & Hsell & Hcov & _ & Hclk).
  split; [exact Hb|]. split; [exact Hlp|]. split; [exact Hbuy|].
  split; [exact Hsell|]. split; [exact (Hcov Hon)|lia].
Qed.

(** X6. A tick places no order and changes nothing but [last_price] when
    the strategy is not trading, and also when [grid_num] is zero or
    negative. *)
Theorem on_tick_places_nothing (tick : Tick.t) (self : GridStrategy.t) (w : World) :
  (CtaTemplate.trading (base self) = false →
   levels_convert (grid_num self) →
   on_tick float_str tick self w
     = inr (tt, set_last_price (Tick.last_price tick) self, w))
  ∧ ((grid_num self ≤ 0)%Z →
     on_tick float_str tick self w
       = inr (tt, set_last_price (Tick.last_price tick) self, w)).
Proof.
  split.
  - intros Hoff Hconv. apply on_tick_skips. intros i Hi.
    destruct (Hconv i Hi) as [f Hf]. exists f. split; [exact Hf|by right].
  - intros Hnone. apply on_tick_skips. intros i Hi. lia.
Qed.

(** X7. Delivering the same tick a second time does nothing: whenever
    [on_tick] has returned, [on_tick] on the same tick returns with the
    strategy and the world as the first call left them, no order sent. *)
Theorem on_tick_twice (tick : Tick.t) (self self1 : GridStrategy.t)
    (w w1 : World) :
  on_tick float_str tick self w = inr (tt, self1, w1) →
  on_tick float_str tick self1 w1 = inr (tt, self1, w1).
Proof.
  intros Hrun.
  apply on_tick_effect in Hrun
    as (Hconv & Hb & Hgs & Hgn & _ & Hlp & _ & _ & Hcov & Hidle & _).
  rewrite on_tick_skips.
  - by rewrite <- Hlp, grid_set_last_price_same.
  - rewrite Hgn, Hgs, Hb. intros i Hi.
    destruct (Hconv i Hi) as [f Hf]. exists f. split; [exact Hf|].
    destruct (CtaTemplate.trading (base self)) eqn:Hon; [left|by right].
    exact (Hcov eq_refl i f Hi Hf).
Qed.

(** X8. Stopping and restarting does not bring the grid back: after a tick
    has placed the grid, [on_stop] (which cancels all orders) and
    [on_start] leave the recorded ids in place, so the same tick places
    no order again. *)
Theorem grid_not_placed_again_after_restart (tick : Tick.t)
    (self s1 s2 s3 : GridStrategy.t) (w w1 w2 w3 : World) :
  CtaTemplate.trading (base self) = true →
  on_tick float_str tick self w = inr (tt, s1, w1) →
  on_stop s1 w1 = inr (tt, s2, w2) →
  on_start s2 w2 = inr (tt, s3, w3) →
  CtaTemplate.trading (base s3) = true
  ∧ on_tick float_str tick s3 w3 = inr (tt, s3, w3).
Proof.
  intros Hon Hrun Hstop Hstart.
  apply on_tick_effect in Hrun
    as (Hconv & Hb & Hgs & Hgn & _ & Hlp & _ & _ & Hcov & _ & _).
  unfold on_stop, cancel_all, write_log, super, CtaTemplate.cancel_all,
    CtaTemplate.write_log in Hstop.
  run_method. simpl in Hstop.
  assert (Hs2 : s2 = set_base (CtaTemplate.set_trading false (base s1)) s1).
  { destruct (CtaTemplate.trading (base s1)); simpl in Hstop;
      injection Hstop as <- _; destruct s1; reflexivity. }
  unfold on_start, write_log, super, CtaTemplate.write_log in Hstart.
  run_method. simpl in Hstart. injection Hstart as <- _.
  subst s2. simpl. split; [reflexivity|].
  rewrite on_tick_skips.
  - simpl. rewrite <- Hlp. destruct s1. reflexivity.
  - simpl. rewrite Hgn, Hgs. intros i Hi.
    destruct (Hconv i Hi) as [f Hf]. exists f. split; [exact Hf|]. left.
    exact (Hcov Hon i f Hi Hf).
Qed.

End GridTicks.

(** * The bar handler of [DoubleMaStrategy] *)

Ltac on_bar_unfold H :=
  unfold DoubleMaStrategy.on_bar, DoubleMaStrategy.calculate_ma,
    DoubleMaStrategy.get_pos, DoubleMaStrategy.buy, DoubleMaStrategy.sell,
    DoubleMaStrategy.put_event, DoubleMaStrategy.super,
    CtaTemplate.get_pos, CtaTemplate.buy, CtaTemplate.sell,
    CtaTemplate._send_order, CtaTemplate.write_log, CtaTemplate.put_event,
    mbind, mret, MX_bind, MX_ret, liftx, outcome, M_bind, M_ret, bind, ret,
    raise, get_self, set_self, print, datetime_now_timestamp, inherited in H;
  simpl in H.

(** Closes the goal that an order call, run on the strategy as the handler
    left it, gives the world the handler ended with. *)
Ltac order_sent :=
  eexists;
  unfold CtaTemplate.buy, CtaTemplate.sell, CtaTemplate._send_order,
    CtaTemplate.write_log;
  run_methodx; simpl;
  match goal with
  | H : CtaTemplate.trading _ = true |- _ => rewrite H
  end;
  try match goal with
      | H : String.eqb _ _ = _ |- _ => rewrite H
      end;
  reflexivity.

(** Splits on the innermost test of the run in hypothesis [H]. *)
Ltac case_step :=
  match goal with
  | H : context [match ?x with _ => _ end] |- _ =>
      lazymatch x with
      | context [match _ with _ => _ end] => fail
      | _ => destruct x eqn:?; simpl in H
      end
  end.

Section DoubleMaBars.
Import DoubleMaStrategy.
Variable float_str : float → string.
Variable float_sum : list float → float.

(** Everything [on_bar] has done when it returns. *)
Lemma on_bar_effect (bar : Bar.t) (self self' : DoubleMaStrategy.t) (w w' : World) :
  on_bar float_str float_sum bar self w = inr (tt, self', w') →
  let hist := history_after (slow_window self) (bars self) bar in
  let vt_symbol := Bar.symbol bar +:+ "." +:+ Bar.exchange bar in
  let pos := default 0%float (CtaTemplate.positions (base self) !! vt_symbol) in
  bars self' = hist
  ∧ fast_window self' = fast_window self
  ∧ slow_window self' = slow_window self
  ∧ fixed_size self' = fixed_size self
  ∧ base self' = CtaTemplate.set_variables (CtaTemplate.variables (base self')) (base self)
  ∧ (((Z.of_nat (length hist) <? slow_window self)%Z = true
      ∧ self' = set_bars hist self ∧ w' = w)
     ∨ ((Z.of_nat (length hist) <? slow_window self)%Z = false
        ∧ sum_truediv float_sum (Bar.close <$> slice_last (fast_window self) hist)
            (fast_window self) = inr (fast_ma self')
        ∧ sum_truediv float_sum (Bar.close <$> slice_last (slow_window self) hist)
            (slow_window self) = inr (slow_ma self')
        ∧ CtaTemplate.variables (base self') =
            <["ma_trend" := PyInt (ma_trend self)]>
              (<["slow_ma" := PyFloat (slow_ma self')]>
                 (<["fast_ma" := PyFloat (fast_ma self')]>
                    (CtaTemplate.variables (base self))))
        ∧ ma_trend self' =
            (if (slow_ma self' <? fast_ma self')%float then 1%Z
             else if (fast_ma self' <? slow_ma self')%float then (-1)%Z
             else ma_trend self)
        ∧ (w' = w
           ∨ ((slow_ma self' <? fast_ma self')%float = true
              ∧ ma_trend self ≠ 1%Z
              ∧ (pos <=? 0)%float = true
              ∧ CtaTemplate.trading (base self) = true
              ∧ ∃ id, CtaTemplate.buy float_str vt_symbol (Bar.close bar)
                        (fixed_size self) false (base self') w
                      = inr (id, base self', w'))
           ∨ ((slow_ma self' <? fast_ma self')%float = false
              ∧ (fast_ma self' <? slow_ma self')%float = true
              ∧ ma_trend self ≠ (-1)%Z
              ∧ (0 <? pos)%float = true
              ∧ CtaTemplate.trading (base self) = true
              ∧ ∃ id, CtaTemplate.sell float_str vt_symbol (Bar.close bar)
                        (abs pos) false (base self') w
                      = inr (id, base self', w'))))).
Proof.
  intros Hrun hist vt_symbol pos. subst hist vt_symbol pos.
  unfold history_after. on_bar_unfold Hrun.
  repeat case_step; try discriminate.
  all: injection Hrun as <- <-; simpl.
  all: repeat match goal with
         | H : negb _ = true |- _ => apply negb_true_iff in H
         | H : negb _ = false |- _ => apply negb_false_iff in H
         | H : (_ =? _)%Z = true |- _ => apply Z.eqb_eq in H
         | H : (_ =? _)%Z = false |- _ => apply Z.eqb_neq in H
         end.
  all: split; [reflexivity|]; split; [reflexivity|]; split; [reflexivity|];
       split; [reflexivity|]; split; [by destruct (base self)|].
  all: first
         [ left; split; [reflexivity|]; split; reflexivity
         | right; split; [reflexivity|]; split; [reflexivity|];
           split; [reflexivity|]; split; [reflexivity|];
           split;
           [ repeat match goal with
                    | H : (_ <? _)%float = _ |- _ => rewrite H
                    end;
             first [reflexivity | congruence]
           | first
               [ left; reflexivity
               | right; left;
                 solve [repeat split; first [assumption | reflexivity | order_sent]]
               | right; right;
                 solve [repeat split; first [assumption | reflexivity | order_sent]] ] ] ].
Qed.
Lemma history_after_length (sw : Z) (bars : list Bar.t) (bar : Bar.t) :
  length (history_after sw bars bar) =
    if (sw * 2 <? Z.of_nat (length bars) + 1)%Z
    then length bars else Datatypes.S (length bars).
Proof.
  unfold history_after. rewrite length_app. simpl.
  replace (Z.of_nat (length bars + 1)) with (Z.of_nat (length bars) + 1)%Z by lia.
  destruct (sw * 2 <? Z.of_nat (length bars) + 1)%Z.
  - destruct bars; simpl; [reflexivity|]. rewrite length_app. simpl. lia.
  - rewrite length_app. simpl. lia.
Qed.

(** Once [slow_window] bars are there, the averages are computed. *)
Lemma history_after_enough (sw : Z) (bars : list Bar.t) (bar : Bar.t) :
  (sw ≤ Z.of_nat (length bars) + 1)%Z →
  (Z.of_nat (length (history_after sw bars bar)) <? sw)%Z = false.
Proof.
  intros Hsw. apply Z.ltb_ge. rewrite history_after_length.
  destruct (sw * 2 <? Z.of_nat (length bars) + 1)%Z eqn:Hpop; [|lia].
  apply Z.ltb_lt in Hpop. lia.
Qed.

Lemma sum_truediv_zero (xs : list float) :
  sum_truediv float_sum xs 0 = inl ZeroDivisionError.
Proof. destruct xs; reflexivity. Qed.

Lemma sum_truediv_raises (xs : list float) (n : Z) (e : pyexn) :
  sum_truediv float_sum xs n = inl e →
  e = ZeroDivisionError ∨ e = OverflowError.
Proof.
  unfold sum_truediv, float_truediv_int. destruct xs.
  - destruct (n =? 0)%Z; [|discriminate]. intros [= <-]. by left.
  - destruct (float_of_int n); [|intros [= <-]; by right].
    destruct (PrimFloat.eqb f0 0); [|discriminate]. intros [= <-]. by left.
Qed.

(** The three ways in which the handler ends before the crossover test. *)
Lemma on_bar_short (bar : Bar.t) (self : DoubleMaStrategy.t) (w : World) :
  let hist := history_after (slow_window self) (bars self) bar in
  (Z.of_nat (length hist) <? slow_window self)%Z = true →
  on_bar float_str float_sum bar self w = inr (tt, set_bars hist self, w).
Proof.
  cbv zeta. unfold history_after.
  destruct (on_bar float_str float_sum bar self w) as [e|[[[] s'] w']] eqn:Hrun;
    on_bar_unfold Hrun; repeat case_step;
    intros; simplify_eq; reflexivity.
Qed.

Lemma on_bar_fast_raises (bar : Bar.t) (self : DoubleMaStrategy.t) (w : World)
    (e : pyexn) :
  let hist := history_after (slow_window self) (bars self) bar in
  (Z.of_nat (length hist) <? slow_window self)%Z = false →
  sum_truediv float_sum (Bar.close <$> slice_last (fast_window self) hist)
    (fast_window self) = inl e →
  on_bar float_str float_sum bar self w = inl e.
Proof.
  cbv zeta. unfold history_after.
  destruct (on_bar float_str float_sum bar self w) as [e'|[[[] s'] w']] eqn:Hrun;
    on_bar_unfold Hrun; repeat case_step;
    intros; simplify_eq; reflexivity.
Qed.

Lemma on_bar_slow_raises (bar : Bar.t) (self : DoubleMaStrategy.t) (w : World)
    (fast : float) (e : pyexn) :
  let hist := history_after (slow_window self) (bars self) bar in
  (Z.of_nat (length hist) <? slow_window self)%Z = false →
  sum_truediv float_sum (Bar.close <$> slice_last (fast_window self) hist)
    (fast_window self) = inr fast →
  sum_truediv float_sum (Bar.close <$> slice_last (slow_window self) hist)
    (slow_window self) = inl e →
  on_bar float_str float_sum bar self w = inl e.
Proof.
  cbv zeta. unfold history_after.
  destruct (on_bar float_str float_sum bar self w) as [e'|[[[] s'] w']] eqn:Hrun;
    on_bar_unfold Hrun; repeat case_step;
    intros; simplify_eq; reflexivity.
Qed.

(** X9. While the history, the new bar included, is shorter than
    [slow_window], [on_bar] only appends the bar: no average is computed,
    no order is sent, nothing is printed and nothing can go wrong. *)
Theorem on_bar_warm_up (bar : Bar.t) (self : DoubleMaStrategy.t) (w : World) :
  (Z.of_nat (length (bars self)) + 1 < slow_window self)%Z →
  on_bar float_str float_sum bar self w
    = inr (tt, set_bars (bars self ++ [bar]) self, w).
Proof.
  intros Hshort.
  assert (Hhist : history_after (slow_window self) (bars self) bar
                  = bars self ++ [bar]).
  { unfold history_after. rewrite length_app. simpl.
    destruct (slow_window self * 2 <? Z.of_nat (length (bars self) + 1))%Z eqn:Hpop;
      [|reflexivity].
    apply Z.ltb_lt in Hpop. lia. }
  rewrite <- Hhist. apply on_bar_short. rewrite Hhist.
  apply Z.ltb_lt. rewrite length_app. simpl. lia.
Qed.

(** X10. A zero window makes the handler fail instead of trading. With
    [fast_window = 0], [on_bar] raises [ZeroDivisionError] as soon as the
    history is long enough for the averages; with [slow_window = 0] no call
    of [on_bar] ever returns: each raises [ZeroDivisionError], or
    [OverflowError] when [fast_window] is too large for a float. *)
Theorem on_bar_zero_window (bar : Bar.t) (self : DoubleMaStrategy.t) (w : World) :
  ((slow_window self ≤ Z.of_nat (length (bars self)) + 1)%Z →
   fast_window self = 0%Z →
   on_bar float_str float_sum bar self w = inl ZeroDivisionError)
  ∧ (slow_window self = 0%Z →
     ∃ e, on_bar float_str float_sum bar self w = inl e
          ∧ (e = ZeroDivisionError ∨ e = OverflowError)).
Proof.
  split.
  - intros Hsw Hfw.
    apply on_bar_fast_raises; [by apply history_after_enough|].
    rewrite Hfw. apply sum_truediv_zero.
  - intros Hsw.
    assert (Hlen : (Z.of_nat (length (history_after (slow_window self)
                                        (bars self) bar))
                    <? slow_window self)%Z = false)
      by (apply history_after_enough; lia).
    destruct (sum_truediv float_sum
                (Bar.close <$> slice_last (fast_window self)
                   (history_after (slow_window self) (bars self) bar))
                (fast_window self)) as [e|fast] eqn:Hfast.
    + exists e. split; [by apply on_bar_fast_raises|].
      by eapply sum_truediv_raises.
    + exists ZeroDivisionError. split; [|by left].
      eapply on_bar_slow_raises; [exact Hlen|exact Hfast|].
      rewrite Hsw at 3. apply sum_truediv_zero.
Qed.

(** The length of the history after [on_bar], from the length before. *)
Lemma on_bar_history_length (bar : Bar.t) (self self' : DoubleMaStrategy.t)
    (w w' : World) :
  (0 ≤ slow_window self)%Z →
  (Z.of_nat (length (bars self)) ≤ 2 * slow_window self)%Z →
  on_bar float_str float_sum bar self w = inr (tt, self', w') →
  slow_window self' = slow_window self
  ∧ (Z.of_nat (length (bars self')) ≤ 2 * slow_window self)%Z.
Proof.
  intros Hsw Hlen Hrun.
  apply on_bar_effect in Hrun as (Hbars & _ & Hsw' & _).
  split; [exact Hsw'|]. rewrite Hbars, history_after_length.
  destruct (slow_window self * 2 <? Z.of_nat (length (bars self)) + 1)%Z eqn:Hpop;
    [lia|].
  apply Z.ltb_ge in Hpop. lia.
Qed.

(** X11. The history never outgrows twice the slow window: if it holds at
    most [2 * slow_window] bars before [on_bar], it does so afterwards,
    and what it holds is a suffix of the old history followed by the new
    bar. *)
Theorem on_bar_history_bounded (bar : Bar.t) (self self' : DoubleMaStrategy.t)
    (w w' : World) :
  (0 ≤ slow_window self)%Z →
  (Z.of_nat (length (bars self)) ≤ 2 * slow_window self)%Z →
  on_bar float_str float_sum bar self w = inr (tt, self', w') →
  slow_window self' = slow_window self
  ∧ (Z.of_nat (length (bars self')) ≤ 2 * slow_window self)%Z
  ∧ bars self' `suffix_of` bars self ++ [bar].
Proof.
  intros Hsw Hlen Hrun.
  apply on_bar_effect in Hrun as (Hbars & _ & Hsw' & _).
  split; [exact Hsw'|]. rewrite Hbars. split.
  - rewrite history_after_length.
    destruct (slow_window self * 2 <? Z.of_nat (length (bars self)) + 1)%Z eqn:Hpop;
      [lia|].
    apply Z.ltb_ge in Hpop. lia.
  - unfold history_after.
    destruct (slow_window self * 2 <? _)%Z; [|reflexivity].
    destruct (bars self ++ [bar]) as [|b l]; [reflexivity|].
    simpl. by apply suffix_cons_r.
Qed.

(** X12. [on_bar] sends at most one order, and only on a bar that changes
    [ma_trend]: a buy of [fixed_size] at the bar's close when the trend
    turns to 1 and the position is at most zero, a sell of the absolute
    position at the bar's close when the trend turns to -1 and the
    position is positive. In every other case, and always when the
    strategy is not trading, the world is left as it was. *)
Theorem on_bar_orders_only_on_trend_change (bar : Bar.t)
    (self self' : DoubleMaStrategy.t) (w w' : World) :
  on_bar float_str float_sum bar self w = inr (tt, self', w') →
  let vt_symbol := Bar.symbol bar +:+ "." +:+ Bar.exchange bar in
  let pos := default 0%float (CtaTemplate.positions (base self) !! vt_symbol) in
  w' = w
  ∨ (CtaTemplate.trading (base self) = true
     ∧ ma_trend self' ≠ ma_trend self
     ∧ clock_reads w' = Datatypes.S (clock_reads w)
     ∧ length (stdout w') = Datatypes.S (length (stdout w))
     ∧ ((ma_trend self' = 1%Z
         ∧ (pos <=? 0)%float = true
         ∧ ∃ id, CtaTemplate.buy float_str vt_symbol (Bar.close bar)
                   (fixed_size self) false (base self') w
                 = inr (id, base self', w'))
        ∨ (ma_trend self' = (-1)%Z
           ∧ (0 <? pos)%float = true
           ∧ ∃ id, CtaTemplate.sell float_str vt_symbol (Bar.close bar)
                     (abs pos) false (base self') w
                   = inr (id, base self', w')))).
Proof.
  intros Hrun vt_symbol pos.
  apply on_bar_effect in Hrun as (_ & _ & _ & _ & Hbase & Hcases).
  fold vt_symbol pos in Hcases.
  assert (Hon' : CtaTemplate.trading (base self')
                 = CtaTemplate.trading (base self)) by (by rewrite Hbase).
  destruct Hcases as [(_ & _ & ->)|(_ & _ & _ & _ & Htrend & Horder)];
    [by left|].
  destruct Horder as [->|[(Hup & Hwas & Hpos & Hon & id & Hbuy)
                         |(Hup & Hdown & Hwas & Hpos & Hon & id & Hsell)]];
    [by left| |]; right.
  - rewrite Hup in Htrend.
    split; [exact Hon|]. split; [congruence|].
    pose proof Hbuy as Hworld.
    unfold CtaTemplate.buy, CtaTemplate._send_order, CtaTemplate.write_log in Hworld.
    run_method. rewrite Hon', Hon in Hworld. simpl in Hworld.
    injection Hworld as _ <-. simpl.
    split; [reflexivity|]. split; [rewrite length_app; simpl; lia|].
    left. eauto.
  - rewrite Hup, Hdown in Htrend.
    split; [exact Hon|]. split; [congruence|].
    pose proof Hsell as Hworld.
    unfold CtaTemplate.sell, CtaTemplate._send_order, CtaTemplate.write_log in Hworld.
    run_method. rewrite Hon', Hon in Hworld. simpl in Hworld.
    injection Hworld as _ <-. simpl.
    split; [reflexivity|]. split; [rewrite length_app; simpl; lia|].
    right. eauto.
Qed.

(** X13. [on_bar] never touches the account side of the strategy: the
    positions, the [trading] and [inited] flags, the strategy type, name,
    symbols and parameters, and the two windows and the order size are
    after the call what they were before. *)
Theorem on_bar_keeps_account (bar : Bar.t) (self self' : DoubleMaStrategy.t)
    (w w' : World) :
  on_bar float_str float_sum bar self w = inr (tt, self', w') →
  CtaTemplate.positions (base self') = CtaTemplate.positions (base self)
  ∧ CtaTemplate.trading (base self') = CtaTemplate.trading (base self)
  ∧ CtaTemplate.inited (base self') = CtaTemplate.inited (base self)
  ∧ CtaTemplate.strategy_type (base self') = CtaTemplate.strategy_type (base self)
  ∧ CtaTemplate.strategy_name (base self') = CtaTemplate.strategy_name (base self)
  ∧ CtaTemplate.vt_symbols (base self') = CtaTemplate.vt_symbols (base self)
  ∧ CtaTemplate.parameters (base self') = CtaTemplate.parameters (base self)
  ∧ fast_window self' = fast_window self
  ∧ slow_window self' = slow_window self
  ∧ fixed_size self' = fixed_size self.
Proof.
  intros Hrun.
  apply on_bar_effect in Hrun as (_ & Hfw & Hsw & Hfs & Hbase & _).
  rewrite Hbase. simpl. by repeat split.
Qed.

(** X14. The trend published in [variables] is the one from before the
    bar: once the averages are computed, [variables["ma_trend"]] holds the
    value [ma_trend] had when [on_bar] was called, whatever the crossover
    test then makes of [ma_trend], while [variables["fast_ma"]] and
    [variables["slow_ma"]] hold the new averages. *)
Theorem on_bar_publishes_previous_trend (bar : Bar.t)
    (self self' : DoubleMaStrategy.t) (w w' : World) :
  (slow_window self ≤ Z.of_nat (length (bars self)) + 1)%Z →
  on_bar float_str float_sum bar self w = inr (tt, self', w') →
  CtaTemplate.variables (base self') !! "ma_trend" = Some (PyInt (ma_trend self))
  ∧ CtaTemplate.variables (base self') !! "fast_ma" = Some (PyFloat (fast_ma self'))
  ∧ CtaTemplate.variables (base self') !! "slow_ma" = Some (PyFloat (slow_ma self'))
  ∧ ma_trend self' =
      (if (slow_ma self' <? fast_ma self')%float then 1%Z
       else if (fast_ma self' <? slow_ma self')%float then (-1)%Z
       else ma_trend self).
Proof.
  intros Hsw Hrun.
  apply on_bar_effect in Hrun as (_ & _ & _ & _ & _ & Hcases).
  destruct Hcases as [(Hshort & _)|(_ & _ & _ & Hvars & Htrend & _)].
  - by rewrite history_after_enough in Hshort.
  - rewrite Hvars. split; [by rewrite lookup_insert_eq|].
    split; [|split; [|exact Htrend]].
    + rewrite lookup_insert_ne by done. rewrite lookup_insert_ne by done.
      by rewrite lookup_insert_eq.
    + rewrite lookup_insert_ne by done. by rewrite lookup_insert_eq.
Qed.

End DoubleMaBars.

(** * The simplified backtest *)

Section SimplifiedBacktest.
Variable float_str : float → string.
Variable float_sum : list float → float.

Lemma run_simplified_backtest_steps {S : Type} (cls : strategy_class S)
    (feed : list Bar.t) (self : S) (w : World) :
  run_simplified_backtest cls feed self w =
    for_each feed (backtest_step cls) (assign_bars cls [] self) w.
Proof. reflexivity. Qed.

Lemma for_each_cons {S A : Type} (x : A) (l : list A) (body : A → MX S unit)
    (self : S) (w : World) :
  for_each (x :: l) body self w =
    match body x self w with
    | inl e => inl e
    | inr (_, self', w') => for_each l body self' w'
    end.
Proof. reflexivity. Qed.

Lemma grid_loop_prints (feed : list Bar.t) : ∀ (self : grid_with_bars) (w : World),
  grid_bars self = [] →
  for_each feed (backtest_step grid_class) self w =
    inr (tt, self,
         mkWorld (stdout w ++ repeat "  Processed 0 bars..." (length feed))
                 (clock w) (clock_reads w)).
Proof.
  induction feed as [|bar feed IH]; intros self w Hbars.
  - simpl. unfold mret, MX_ret. rewrite app_nil_r. destruct w. reflexivity.
  - rewrite for_each_cons.
    assert (Hbody : backtest_step grid_class bar self w =
                    inr (tt, self, printed "  Processed 0 bars..." w)).
    { unfold backtest_step, grid_class, call_on_bar, read_bars,
        GridStrategy.super, CtaTemplate.on_bar.
      run_methodx. simpl. rewrite grid_set_base_same, Hbars. simpl.
      destruct self as [g held]. simpl in Hbars. subst held.
      reflexivity. }
    rewrite Hbody. rewrite IH by exact Hbars. simpl.
    by rewrite <- app_assoc.
Qed.

(** X15. The simplified backtest does nothing with a grid strategy, which
    only reacts to ticks: for every list of bars it returns with the
    strategy as it was, no order sent, and prints the line
    [Processed 0 bars...] once for each bar. *)
Theorem grid_backtest_only_prints (feed : list Bar.t) (self : grid_with_bars)
    (w : World) :
  run_simplified_backtest grid_class feed self w =
    inr (tt, mk_grid_with_bars (grid_object self) [],
         mkWorld (stdout w ++ repeat "  Processed 0 bars..." (length feed))
                 (clock w) (clock_reads w)).
Proof.
  rewrite run_simplified_backtest_steps. by rewrite grid_loop_prints.
Qed.

Let dma := double_ma_class float_str float_sum.

(** One pass of the loop on a [DoubleMaStrategy]: the handler, then at
    most a progress line. *)
Lemma dma_loop_body (bar : Bar.t) (self self' : DoubleMaStrategy.t) (w w' : World) :
  backtest_step dma bar self w = inr (tt, self', w') →
  ∃ w1, DoubleMaStrategy.on_bar float_str float_sum bar self w = inr (tt, self', w1).
Proof.
  unfold backtest_step, dma, double_ma_class, call_on_bar, read_bars.
  unfold mbind at 1, MX_bind at 1.
  destruct (DoubleMaStrategy.on_bar float_str float_sum bar self w)
    as [e|[[[] s1] w1]]; [discriminate|].
  run_methodx.
  destruct (_ =? 0)%Z; simpl; intros [= <- _]; eauto.
Qed.

Lemma history_after_drop (sw : Z) (fed : list Bar.t) (bar : Bar.t) :
  (0 ≤ sw)%Z →
  history_after sw (drop (length fed - Z.to_nat (2 * sw)) fed) bar =
    drop (length (fed ++ [bar]) - Z.to_nat (2 * sw)) (fed ++ [bar]).
Proof.
  intros Hsw. unfold history_after.
  rewrite !length_app, length_drop. simpl.
  destruct (sw * 2 <? _)%Z eqn:Hpop.
  - apply Z.ltb_lt in Hpop.
    assert (Hcap : Z.to_nat (2 * sw) ≤ length fed) by lia.
    rewrite <- (drop_app_le fed [bar]) by lia.
    change (tail ?l) with (drop 1 l). rewrite drop_drop. f_equal. lia.
  - apply Z.ltb_ge in Hpop.
    replace (length fed - Z.to_nat (2 * sw)) with 0 by lia.
    replace (length fed + 1 - Z.to_nat (2 * sw)) with 0 by lia.
    reflexivity.
Qed.

Lemma dma_loop_history (feed : list Bar.t) :
  ∀ (fed : list Bar.t) (self self' : DoubleMaStrategy.t) (w w' : World),
    (0 ≤ DoubleMaStrategy.slow_window self)%Z →
    DoubleMaStrategy.bars self =
      drop (length fed - Z.to_nat (2 * DoubleMaStrategy.slow_window self)) fed →
    for_each feed (backtest_step dma) self w = inr (tt, self', w') →
    DoubleMaStrategy.slow_window self' = DoubleMaStrategy.slow_window self
    ∧ DoubleMaStrategy.bars self' =
        drop (length (fed ++ feed)
              - Z.to_nat (2 * DoubleMaStrategy.slow_window self))
             (fed ++ feed).
Proof.
  induction feed as [|bar feed IH]; intros fed self self' w w' Hsw Hbars Hrun.
  - simpl in Hrun. unfold mret, MX_ret in Hrun. injection Hrun as <- _.
    by rewrite app_nil_r.
  - rewrite for_each_cons in Hrun.
    destruct (backtest_step dma bar self w) as [e|[[[] s1] w1]] eqn:Hbody;
      [discriminate|].
    apply dma_loop_body in Hbody as [w0 Hbar].
    apply on_bar_effect in Hbar as (Hb1 & _ & Hsw1 & _).
    rewrite Hbars, history_after_drop in Hb1 by exact Hsw.
    apply (IH (fed ++ [bar])) in Hrun as [Hsw' Hb'].
    + rewrite Hsw1 in *. split; [exact Hsw'|].
      by rewrite <- app_assoc in Hb'.
    + by rewrite Hsw1.
    + by rewrite Hsw1.
Qed.

(** X16. After a simplified backtest that completes, the history of a
    [DoubleMaStrategy] is exactly the last [2 * slow_window] bars of the
    feed, in order (the whole feed when it is shorter), whatever the
    strategy held before. *)
Theorem dma_backtest_history (feed : list Bar.t)
    (self self' : DoubleMaStrategy.t) (w w' : World) :
  (0 ≤ DoubleMaStrategy.slow_window self)%Z →
  run_simplified_backtest dma feed self w = inr (tt, self', w') →
  DoubleMaStrategy.bars self' =
    drop (length feed - Z.to_nat (2 * DoubleMaStrategy.slow_window self)) feed.
Proof.
  intros Hsw. rewrite run_simplified_backtest_steps. intros Hrun.
  apply (dma_loop_history feed []) in Hrun as [_ Hbars];
    [exact Hbars|exact Hsw|reflexivity].
Qed.

Lemma dma_loop_no_progress (feed : list Bar.t) :
  ∀ (self : DoubleMaStrategy.t) (w : World),
    (1 ≤ DoubleMaStrategy.slow_window self < 500)%Z →
    (Z.of_nat (length (DoubleMaStrategy.bars self))
     ≤ 2 * DoubleMaStrategy.slow_window self)%Z →
    for_each feed (backtest_step dma) self w = for_each feed (call_on_bar dma) self w.
Proof.
  induction feed as [|bar feed IH]; intros self w Hsw Hlen; [reflexivity|].
  rewrite !for_each_cons.
  assert (Hbody : backtest_step dma bar self w = call_on_bar dma bar self w).
  { unfold backtest_step, dma, double_ma_class, call_on_bar, read_bars.
    unfold mbind at 1, MX_bind at 1.
    destruct (DoubleMaStrategy.on_bar float_str float_sum bar self w)
      as [e|[[[] s1] w1]] eqn:Hbar; [reflexivity|].
    apply on_bar_effect in Hbar as (Hb1 & _).
    run_methodx. rewrite Hb1, history_after_length.
    destruct (_ * 2 <? _)%Z eqn:Hpop;
      [apply Z.ltb_lt in Hpop|apply Z.ltb_ge in Hpop].
    - rewrite Z.mod_small by lia.
      destruct (Z.eqb_spec (Z.of_nat (length (DoubleMaStrategy.bars self))) 0);
        [lia|reflexivity].
    - rewrite Z.mod_small by lia.
      destruct (Z.eqb_spec
                  (Z.of_nat (Datatypes.S (length (DoubleMaStrategy.bars self)))) 0);
        [lia|reflexivity]. }
  rewrite Hbody.
  destruct (call_on_bar dma bar self w) as [e|[[[] s1] w1]] eqn:Hbar;
    [reflexivity|].
  unfold dma, double_ma_class, call_on_bar in Hbar.
  destruct (on_bar_history_length float_str float_sum bar self s1 w w1)
    as (Hsw1 & Hlen1); [lia|exact Hlen|exact Hbar|].
  apply IH; by rewrite Hsw1.
Qed.

(** X17. The progress report counts the bars the strategy holds, not the
    bars processed: with a slow window from 1 to 499 the history is capped
    below 1000 bars, so the simplified backtest of a [DoubleMaStrategy]
    never prints a progress line; it runs exactly as feeding the bars to
    [on_bar] does, to the same result or the same exception. *)
Theorem dma_backtest_prints_no_progress (feed : list Bar.t)
    (self : DoubleMaStrategy.t) (w : World) :
  (1 ≤ DoubleMaStrategy.slow_window self < 500)%Z →
  run_simplified_backtest dma feed self w = feed_bars dma feed self w.
Proof.
  intros Hsw. rewrite run_simplified_backtest_steps.
  change (feed_bars dma feed self w)
    with (for_each feed (call_on_bar dma) (assign_bars dma [] self) w).
  apply dma_loop_no_progress; simpl; lia.
Qed.

End SimplifiedBacktest.
(** * Orders of the concrete strategies *)

Section StrategyOrders.
Variable float_str : float → string.

(** X18. When a fill reaches a [GridStrategy], the inherited position
    update comes first and one reverse order follows: a sell one grid step
    above the fill price for a long fill, a buy one grid step below it for
    any other, of the fill's volume. The order id is dropped: [buy_orders],
    [sell_orders] and [last_price] are as before. When the position update
    raises, [on_trade] raises the same and submits nothing. *)
Theorem grid_on_trade_reverse_order (trade : Trade.t) (self : GridStrategy.t)
    (w : World) :
  (∀ b1 : CtaTemplate.t,
     CtaTemplate.on_trade trade (GridStrategy.base self) w = inr (tt, b1, w) →
     ∃ (id : string) (w' : World),
       GridStrategy.on_trade float_str trade self w
         = inr (tt, GridStrategy.set_base b1 self, w')
       ∧ (if String.eqb (Trade.direction trade) "long"
          then CtaTemplate.sell float_str (trade_vt_symbol trade)
                 (Trade.price trade + GridStrategy.grid_size self)
                 (Trade.volume trade) false b1 w
          else CtaTemplate.buy float_str (trade_vt_symbol trade)
                 (Trade.price trade - GridStrategy.grid_size self)
                 (Trade.volume trade) false b1 w)
         = inr (id, b1, w'))
  ∧ (∀ e : exn,
       CtaTemplate.on_trade trade (GridStrategy.base self) w = inl e →
       GridStrategy.on_trade float_str trade self w = inl e).
Proof.
  split.
  - intros b1 Hbase.
    unfold GridStrategy.on_trade, GridStrategy.sell, GridStrategy.buy,
      GridStrategy.super, trade_vt_symbol.
    run_method. rewrite Hbase. simpl.
    unfold CtaTemplate.sell, CtaTemplate.buy, CtaTemplate._send_order,
      CtaTemplate.write_log.
    run_method. simpl.
    repeat match goal with
           | |- context [if ?c then _ else _] => destruct c eqn:?; simpl
           end;
      do 2 eexists; (split; [|reflexivity]); by destruct self.
  - intros e Hbase. unfold GridStrategy.on_trade, GridStrategy.super.
    run_method. by rewrite Hbase.
Qed.

(** X19. On a [DoubleMaStrategy] and on a [GridStrategy], orders are
    accepted after [on_start] and refused after [on_stop]: a [buy] that
    follows [on_start] returns an id that is not empty, a [buy] or [sell]
    that follows [on_stop] returns the empty id and leaves strategy and
    world alone. *)
Theorem orders_follow_start_and_stop (vt_symbol : string) (price volume : float)
    (lock : bool) (w : World) :
  (∀ (self s1 : GridStrategy.t) (w1 : World),
     GridStrategy.on_start self w = inr (tt, s1, w1) →
     ∃ id w2, GridStrategy.buy float_str vt_symbol price volume lock s1 w1
                = inr (id, s1, w2) ∧ id ≠ "")
  ∧ (∀ (self s1 : GridStrategy.t) (w1 : World),
       GridStrategy.on_stop self w = inr (tt, s1, w1) →
       GridStrategy.buy float_str vt_symbol price volume lock s1 w1
         = inr ("", s1, w1)
       ∧ GridStrategy.sell float_str vt_symbol price volume lock s1 w1
         = inr ("", s1, w1))
  ∧ (∀ (self s1 : DoubleMaStrategy.t) (w1 : World),
       DoubleMaStrategy.on_start self w = inr (tt, s1, w1) →
       ∃ id w2, DoubleMaStrategy.buy float_str vt_symbol price volume lock s1 w1
                  = inr (id, s1, w2) ∧ id ≠ "")
  ∧ (∀ (self s1 : DoubleMaStrategy.t) (w1 : World),
       DoubleMaStrategy.on_stop self w = inr (tt, s1, w1) →
       DoubleMaStrategy.buy float_str vt_symbol price volume lock s1 w1
         = inr ("", s1, w1)
       ∧ DoubleMaStrategy.sell float_str vt_symbol price volume lock s1 w1
         = inr ("", s1, w1)).
Proof.
  split; [|split; [|split]].
  - intros self s1 w1.
    unfold GridStrategy.on_start, GridStrategy.write_log, GridStrategy.buy,
      GridStrategy.super, CtaTemplate.write_log, CtaTemplate.buy,
      CtaTemplate._send_order.
    run_method. simpl. intros [= <- <-]. simpl.
    do 2 eexists. split; [reflexivity|discriminate].
  - intros self s1 w1.
    unfold GridStrategy.on_stop, GridStrategy.cancel_all, GridStrategy.write_log,
      GridStrategy.buy, GridStrategy.sell, GridStrategy.super,
      CtaTemplate.cancel_all, CtaTemplate.write_log, CtaTemplate.buy,
      CtaTemplate.sell.
    run_method. simpl.
    destruct (CtaTemplate.trading (GridStrategy.base self)); simpl;
      intros [= <- <-]; simpl; by split.
  - intros self s1 w1.
    unfold DoubleMaStrategy.on_start, DoubleMaStrategy.write_log,
      DoubleMaStrategy.buy, DoubleMaStrategy.super, CtaTemplate.write_log,
      CtaTemplate.buy, CtaTemplate._send_order.
    run_method. simpl. intros [= <- <-]. simpl.
    do 2 eexists. split; [reflexivity|discriminate].
  - intros self s1 w1.
    unfold DoubleMaStrategy.on_stop, DoubleMaStrategy.write_log,
      DoubleMaStrategy.buy, DoubleMaStrategy.sell, DoubleMaStrategy.super,
      CtaTemplate.write_log, CtaTemplate.buy, CtaTemplate.sell.
    run_method. simpl. intros [= <- <-]. simpl. by split.
Qed.

End StrategyOrders.

(** * What the handlers can raise *)

Section HandlerErrors.
Variable float_str : float → string.
Variable float_sum : list float → float.

Lemma place_buy_raises vt_symbol current_price i self w e :
  GridStrategy.place_buy float_str vt_symbol current_price i self w = inl e →
  e = OverflowError.
Proof.
  unfold GridStrategy.place_buy, int_mul_float, GridStrategy.buy,
    GridStrategy.super, CtaTemplate.buy, CtaTemplate._send_order,
    CtaTemplate.write_log.
  run_methodx.
  destruct (float_of_int i); [|by intros [= <-]].
  destruct (GridStrategy.buy_orders self !! _); [discriminate|].
  destruct (CtaTemplate.trading (GridStrategy.base self)); discriminate.
Qed.

Lemma place_sell_raises vt_symbol current_price i self w e :
  GridStrategy.place_sell float_str vt_symbol current_price i self w = inl e →
  e = OverflowError.
Proof.
  unfold GridStrategy.place_sell, int_mul_float, GridStrategy.sell,
    GridStrategy.super, CtaTemplate.sell, CtaTemplate._send_order,
    CtaTemplate.write_log.
  run_methodx.
  destruct (float_of_int i); [|by intros [= <-]].
  destruct (GridStrategy.sell_orders self !! _); [discriminate|].
  destruct (CtaTemplate.trading (GridStrategy.base self)); discriminate.
Qed.

Lemma for_each_raises {S A : Type} (body : A → MX S unit) (P : pyexn → Prop) :
  (∀ x self w e, body x self w = inl e → P e) →
  ∀ (l : list A) (self : S) (w : World) (e : pyexn),
    for_each l body self w = inl e → P e.
Proof.
  intros Hbody l. induction l as [|x l IH]; intros self w e; [discriminate|].
  simpl. unfold mbind, MX_bind.
  destruct (body x self w) as [e'|[[[] s1] w1]] eqn:Hx.
  - intros [= <-]. by eapply Hbody.
  - apply IH.
Qed.

(** X20. The handlers of the two strategies fail on arithmetic only. An
    [on_tick] that raises raises [OverflowError], from a grid level too
    large for a float; an [on_bar] that raises raises [ZeroDivisionError]
    or [OverflowError], from a window that is zero or too large. Neither
    ever raises [KeyError]: the position of an unknown symbol is read as
    zero. *)
Theorem handlers_raise_arithmetic_errors_only :
  (∀ (tick : Tick.t) (self : GridStrategy.t) (w : World) (e : pyexn),
     GridStrategy.on_tick float_str tick self w = inl e → e = OverflowError)
  ∧ (∀ (bar : Bar.t) (self : DoubleMaStrategy.t) (w : World) (e : pyexn),
       DoubleMaStrategy.on_bar float_str float_sum bar self w = inl e →
       e = ZeroDivisionError ∨ e = OverflowError).
Proof.
  split.
  - intros tick self w e.
    unfold GridStrategy.on_tick, GridStrategy.check_grid_orders.
    unfold mbind at 1, MX_bind at 1, liftx at 1, set_self at 1.
    unfold mbind at 1, MX_bind at 1, liftx at 1, get_self at 1.
    unfold mbind at 1, MX_bind at 1.
    destruct (for_each _ (GridStrategy.place_buy _ _ _) _ w)
      as [e'|[[[] s1] w1]] eqn:Hbuy.
    + intros [= <-]. revert Hbuy.
      apply (for_each_raises _ (λ e, e = OverflowError)).
      intros i s w0 e0. apply place_buy_raises.
    + unfold mbind at 1, MX_bind at 1, liftx at 1, get_self at 1.
      apply (for_each_raises _ (λ e, e = OverflowError)).
      intros i s w0 e0. apply place_sell_raises.
  - intros bar self w e Hrun.
    on_bar_unfold Hrun. repeat case_step; simplify_eq;
      eauto using sum_truediv_raises.
Qed.

End HandlerErrors.

(** * The replay never fills an order on the data point that created it *)

Section EngineFacts.
Import Engine.
Context {S : Type} `{Strategy S}.
Variable cfg : config.

Lemma keeps_orders_refl (e : engine S) : keeps_orders e e.
Proof. intros i o Hi. eauto. Qed.

Lemma keeps_orders_trans (e1 e2 e3 : engine S) :
  keeps_orders e1 e2 → keeps_orders e2 e3 → keeps_orders e1 e3.
Proof.
  intros H12 H23 i o Hi.
  destruct (H12 i o Hi) as (o2 & Hi2 & Hid2 & Hc2).
  destruct (H23 i o2 Hi2) as (o3 & Hi3 & Hid3 & Hc3).
  exists o3. split; [exact Hi3|]. split; congruence.
Qed.

Lemma no_look_ahead_keeps (e e' : engine S) :
  no_look_ahead e → keeps_orders e e' → trades e' = trades e → no_look_ahead e'.
Proof.
  intros Hnla Hkeep Htr tr Hin. rewrite Htr in Hin.
  destruct (Hnla tr Hin) as (o & Ho & Hid & Hlt).
  destruct (Hkeep _ _ Ho) as (o' & Ho' & Hid' & Hc').
  exists o'. split; [exact Ho'|]. split; [congruence|]. by rewrite Hc'.
Qed.

Lemma older_keeps (T : Z) (ids : list nat) (e e' : engine S) :
  older T ids e → keeps_orders e e' → older T ids e'.
Proof.
  intros Hold Hkeep id Hin.
  destruct (Hold id Hin) as (o & Ho & Hlt).
  destruct (Hkeep _ _ Ho) as (o' & Ho' & _ & Hc').
  exists o'. split; [exact Ho'|]. by rewrite Hc'.
Qed.

Lemma book_before_le (T T' : Z) (e : engine S) :
  (T ≤ T')%Z → book_before T e → book_before T' e.
Proof.
  intros Hle Hb i o Hi. destruct (Hb i o Hi) as (Hid & Hlt & Hc).
  repeat split; [exact Hid | exact Hlt | lia].
Qed.

Lemma carried_trans (now : Z) (e1 e2 e3 : engine S) :
  carried now e1 e2 → carried now e2 e3 → carried now e1 e3.
Proof.
  intros (_ & Hk12 & Ht12) (Hb3 & Hk23 & Ht23).
  split; [exact Hb3|]. split; [by eapply keeps_orders_trans | congruence].
Qed.

Lemma submit_carried now sym sd off price vol (e : engine S) :
  book_before now e →
  carried now e (submit cfg now sym sd off price vol e).2.
Proof.
  intros Hb. unfold submit.
  destruct (negb (trading e)); [by split; [|split; [apply keeps_orders_refl|]]|].
  destruct (vol <=? 0)%Z; [by split; [|split; [apply keeps_orders_refl|]]|].
  destruct (negb (supported cfg sd off));
    [by split; [|split; [apply keeps_orders_refl|]]|].
  simpl. split; [|split; [|reflexivity]].
  - intros i o. simpl.
    destruct (decide (i = next_order_id e)) as [->|Hne].
    + rewrite lookup_insert_eq. intros [= <-]. simpl. repeat split; lia.
    + rewrite lookup_insert_ne by done. intros Hi.
      destruct (Hb i o Hi) as (Hid & Hlt & Hc). repeat split; [done|lia|done].
  - intros i o Hi. simpl.
    destruct (Hb i o Hi) as (_ & Hlt & _).
    rewrite lookup_insert_ne by lia. eauto.
Qed.

Lemma cancel_carried now id (e : engine S) :
  book_before now e →
  carried now e (cancel id e).2.
Proof.
  intros Hb. unfold cancel.
  destruct (book e !! id) as [o|] eqn:Ho;
    [|by split; [|split; [apply keeps_orders_refl|]]].
  destruct (pending o).
  - simpl. split; [|split; [|reflexivity]].
    + intros i o'. simpl.
      destruct (decide (i = id)) as [->|Hne].
      * rewrite lookup_insert_eq. intros [= <-]. simpl. exact (Hb id o Ho).
      * rewrite lookup_insert_ne by done. apply Hb.
    + intros i o' Hi. simpl.
      destruct (decide (i = id)) as [->|Hne].
      * rewrite lookup_insert_eq. rewrite Ho in Hi. injection Hi as <-.
        eexists. split; [reflexivity|]. split; reflexivity.
      * rewrite lookup_insert_ne by done. eauto.
  - destruct (order_status o);
      by split; [|split; [apply keeps_orders_refl|]].
Qed.

Lemma set_strat_carried now s (e : engine S) :
  book_before now e → carried now e (set_strat s e).
Proof.
  intros Hb. split; [exact Hb|]. split; [|reflexivity].
  intros i o Hi. simpl. eauto.
Qed.

Lemma run_carried now (c : callback S) : ∀ e : engine S,
  book_before now e → carried now e (run cfg now c e).
Proof.
  induction c as [s | sym sd off price vol k IH | id k IH]; intros e Hb; simpl.
  - by apply set_strat_carried.
  - pose proof (submit_carried now sym sd off price vol e Hb) as Hsub.
    destruct (submit cfg now sym sd off price vol e) as [r e'] eqn:Hr.
    simpl in Hsub. eapply carried_trans; [exact Hsub|].
    apply IH. apply Hsub.
  - pose proof (cancel_carried now id e Hb) as Hcan.
    destruct (cancel id e) as [r e'] eqn:Hr.
    simpl in Hcan. eapply carried_trans; [exact Hcan|].
    apply IH. apply Hcan.
Qed.

Lemma dispatch_bars_carried now (bars : list bar) : ∀ e : engine S,
  Forall (λ b, timestamp b = now) bars →
  book_before now e →
  carried now e (foldl (dispatch_bar cfg) e bars).
Proof.
  induction bars as [|b bars IH]; intros e Hts Hb; simpl.
  - split; [exact Hb|]. split; [apply keeps_orders_refl|reflexivity].
  - apply Forall_cons in Hts as [Hb0 Hts].
    assert (Hstep : carried now e (dispatch_bar cfg e b)).
    { unfold dispatch_bar. rewrite Hb0. by apply run_carried. }
    eapply carried_trans; [exact Hstep|]. apply IH; [exact Hts | apply Hstep].
Qed.

(** Matching one order that is older than the bar keeps the book sound and
    the trade log free of look-ahead. *)
Lemma match_order_sound (b : bar) (id : nat) (e : engine S) :
  book_before (timestamp b) e →
  no_look_ahead e →
  (∃ o, book e !! id = Some o ∧ (created_timestamp o < timestamp b)%Z) →
  book_before (timestamp b) (match_order cfg b e id)
  ∧ no_look_ahead (match_order cfg b e id)
  ∧ keeps_orders e (match_order cfg b e id).
Proof.
  intros Hb Hnla (o & Ho & Hlt). unfold match_order. rewrite Ho.
  destruct (pending o && String.eqb (order_symbol o) (symbol b));
    [|by split; [|split; [|apply keeps_orders_refl]]].
  destruct (crossing cfg o b) as [px|];
    [|by split; [|split; [|apply keeps_orders_refl]]].
  cbv zeta.
  set (tr := mk_trade (length (trades e)) id (order_symbol o) (order_side o)
               (order_offset o) px (requested o) (timestamp b)).
  set (e1 := mk_engine (strat e) (trading e) (<[id := fill o]> (book e))
               (trades e ++ [tr]) (next_order_id e)).
  destruct (Hb id o Ho) as (Hid & Hnext & Hc).
  assert (Hb1 : book_before (timestamp b) e1).
  { intros i o'. simpl. destruct (decide (i = id)) as [->|Hne].
    - rewrite lookup_insert_eq. intros [= <-]. simpl. done.
    - rewrite lookup_insert_ne by done. apply Hb. }
  assert (Hk1 : keeps_orders e e1).
  { intros i o' Hi. simpl. destruct (decide (i = id)) as [->|Hne].
    - rewrite lookup_insert_eq. rewrite Ho in Hi. injection Hi as <-.
      eexists. split; [reflexivity|]. split; reflexivity.
    - rewrite lookup_insert_ne by done. eauto. }
  assert (Hn1 : no_look_ahead e1).
  { intros tr' Hin. simpl in Hin. apply elem_of_app in Hin as [Hin|Hin].
    - destruct (Hnla tr' Hin) as (o1 & Ho1 & Hid1 & Hlt1).
      destruct (Hk1 _ _ Ho1) as (o2 & Ho2 & Hid2 & Hc2).
      exists o2. split; [exact Ho2|]. split; [congruence|]. by rewrite Hc2.
    - apply list_elem_of_singleton in Hin as ->. simpl.
      exists (fill o). rewrite lookup_insert_eq. simpl. done. }
  pose proof (run_carried (timestamp b) (on_order (strat e1) (fill o)) e1 Hb1)
    as Hrun2.
  set (e2 := run cfg (timestamp b) (on_order (strat e1) (fill o)) e1) in *.
  destruct Hrun2 as (Hb2 & Hk2 & Ht2).
  pose proof (run_carried (timestamp b) (on_trade (strat e2) tr) e2 Hb2)
    as Hrun3.
  set (e3 := run cfg (timestamp b) (on_trade (strat e2) tr) e2) in *.
  destruct Hrun3 as (Hb3 & Hk3 & Ht3).
  split; [exact Hb3|]. split.
  - eapply no_look_ahead_keeps; [|exact Hk3|exact Ht3].
    eapply no_look_ahead_keeps; [exact Hn1|exact Hk2|exact Ht2].
  - eapply keeps_orders_trans; [exact Hk1|].
    eapply keeps_orders_trans; [exact Hk2|exact Hk3].
Qed.

Lemma match_orders_sound (b : bar) (ids : list nat) : ∀ (all : list nat) (e : engine S),
  ids ⊆ all →
  book_before (timestamp b) e →
  no_look_ahead e →
  older (timestamp b) all e →
  book_before (timestamp b) (foldl (match_order cfg b) e ids)
  ∧ no_look_ahead (foldl (match_order cfg b) e ids)
  ∧ keeps_orders e (foldl (match_order cfg b) e ids).
Proof.
  induction ids as [|id ids IH]; intros all e Hsub Hb Hnla Hold; simpl.
  - split; [exact Hb|]. split; [exact Hnla|apply keeps_orders_refl].
  - assert (Hid : id ∈ all) by (apply Hsub; apply list_elem_of_here).
    destruct (match_order_sound b id e Hb Hnla (Hold id Hid)) as (Hb1 & Hn1 & Hk1).
    destruct (IH all (match_order cfg b e id)) as (Hb2 & Hn2 & Hk2).
    + intros x Hx. apply Hsub. by apply list_elem_of_further.
    + exact Hb1.
    + exact Hn1.
    + by eapply older_keeps.
    + split; [exact Hb2|]. split; [exact Hn2|by eapply keeps_orders_trans].
Qed.

Lemma match_bars_sound (now : Z) (ids : list nat) (bars : list bar) : ∀ e : engine S,
  Forall (λ b, timestamp b = now) bars →
  book_before now e →
  no_look_ahead e →
  older now ids e →
  book_before now (foldl (λ e b, foldl (match_order cfg b) e ids) e bars)
  ∧ no_look_ahead (foldl (λ e b, foldl (match_order cfg b) e ids) e bars).
Proof.
  induction bars as [|b bars IH]; intros e Hts Hb Hnla Hold; simpl.
  - by split.
  - apply Forall_cons in Hts as [<- Hts].
    destruct (match_orders_sound b ids ids e) as (Hb1 & Hn1 & Hk1); try done.
    apply IH; try done. by eapply older_keeps.
Qed.

Lemma eligible_older (T0 T : Z) (e : engine S) :
  (T0 < T)%Z → book_before T0 e → older T (eligible e) e.
Proof.
  intros Hlt Hb id Hin. unfold eligible in Hin.
  apply list_elem_of_In, filter_In in Hin as [_ Hpend].
  destruct (book e !! id) as [o|] eqn:Ho; [|discriminate].
  exists o. split; [reflexivity|]. destruct (Hb id o Ho) as (_ & _ & Hc). lia.
Qed.

Lemma step_sound (T0 : Z) (g : group) (e : engine S) :
  (T0 < group_time g)%Z →
  Forall (λ b, timestamp b = group_time g) (group_bars g) →
  book_before T0 e →
  no_look_ahead e →
  book_before (group_time g) (step cfg e g) ∧ no_look_ahead (step cfg e g).
Proof.
  intros Hlt Hts Hb Hnla. unfold step.
  pose proof (eligible_older T0 (group_time g) e Hlt Hb) as Hold.
  assert (Hb' : book_before (group_time g) e) by (eapply book_before_le; [|exact Hb]; lia).
  destruct (dispatch_bars_carried (group_time g) (group_bars g) e Hts Hb')
    as (Hb1 & Hk1 & Ht1).
  apply match_bars_sound; try done.
  - by eapply no_look_ahead_keeps.
  - by eapply older_keeps.
Qed.

Lemma bar_ok_timestamp (t : Z) (b : bar) : bar_ok t b = true → timestamp b = t.
Proof.
  unfold bar_ok. rewrite !andb_true_iff. intros [[[[Ht _] _] _] _]. lia.
Qed.

Lemma replay_sound (feed : list group) : ∀ (prev : option Z) (e : engine S),
  check_feed prev feed = None →
  (∀ T : Z, match prev with Some p => (p ≤ T)%Z | None => True end →
            book_before T e) →
  no_look_ahead e →
  no_look_ahead (foldl (step cfg) e feed).
Proof.
  induction feed as [|g feed IH]; intros prev e Hchk Hb Hnla; simpl.
  - exact Hnla.
  - simpl in Hchk.
    destruct (negb match prev with Some p => (p <? group_time g)%Z | None => true end)
      eqn:Hprev; [discriminate|].
    destruct (negb (forallb (bar_ok (group_time g)) (group_bars g))) eqn:Hbars;
      [discriminate|].
    apply negb_false_iff in Hprev, Hbars.
    assert (Hts : Forall (λ b, timestamp b = group_time g) (group_bars g)).
    { apply Forall_forall. intros b Hin. apply bar_ok_timestamp.
      rewrite forallb_forall in Hbars. apply Hbars. by apply list_elem_of_In. }
    destruct (step_sound (group_time g - 1) g e) as (Hb1 & Hn1); try done.
    + lia.
    + apply Hb. destruct prev as [p|]; [|done]. apply Z.ltb_lt in Hprev. lia.
    + apply (IH (Some (group_time g))); [exact Hchk| |exact Hn1].
      intros T HT. by eapply book_before_le.
Qed.

Lemma finish_no_look_ahead (e : engine S) :
  no_look_ahead e → no_look_ahead (finish e).
Proof.
  intros Hnla tr Hin. simpl in Hin.
  destruct (Hnla tr Hin) as (o & Ho & Hid & Hlt).
  exists (if pending o then set_status Cancelled o else o).
  simpl. rewrite lookup_fmap, Ho. simpl.
  split; [reflexivity|]. destruct (pending o); done.
Qed.

(** C8. In a completed backtest every trade of the log names an order of
    the book, its originating order, and its timestamp is strictly greater
    than that order's creation timestamp: an order submitted while a data
    point is dispatched is matched from the next data point on. *)
Theorem trade_after_order_creation (s : S) (feed : list group) (e : engine S) :
  backtest cfg s feed = inr e →
  ∀ tr : trade,
    tr ∈ trades e →
    ∃ o : order,
      book e !! trade_order tr = Some o
      ∧ order_id o = trade_order tr
      ∧ (created_timestamp o < trade_timestamp tr)%Z.
Proof.
  unfold backtest. intros Hrun.
  destruct feed as [|g feed]; [discriminate|].
  destruct (check_feed None (g :: feed)) as [why|] eqn:Hchk; [discriminate|].
  injection Hrun as <-.
  apply finish_no_look_ahead.
  apply (replay_sound (g :: feed) None); [exact Hchk| |].
  - intros T _ i o. simpl. by rewrite lookup_empty.
  - intros tr Hin. simpl in Hin. by apply elem_of_nil in Hin.
Qed.

(** A feed that passes the checks always completes. *)
Lemma backtest_completes (s : S) (g : group) (feed : list group) :
  check_feed None (g :: feed) = None →
  ∃ e : engine S, backtest cfg s (g :: feed) = inr e.
Proof. intros Hchk. unfold backtest. rewrite Hchk. eauto. Qed.

(** A submission while trading is disabled is refused and leaves the
    engine, its order book included, as it was. *)
Lemma submit_refused_when_trading_disabled now sym sd off price vol (e : engine S) :
  trading e = false →
  submit cfg now sym sd off price vol e = (Refused TradingDisabled, e).
Proof. intros Hoff. unfold submit. rewrite Hoff. reflexivity. Qed.

End EngineFacts.

(** * The Sharpe ratio *)

Section SharpeFacts.
Import Statistics.
















End SharpeFacts.

(** * The properties at sample inputs *)

(** C3 on a freshly built strategy, whose [trading] flag is false. *)
Lemma buy_sell_rejected_when_not_trading_witness :
  CtaTemplate.buy sample_float_str "BTCUSDT.BINANCE" 50000 1 false
    sample_spot sample_world = inr ("", sample_spot, sample_world)
  ∧ CtaTemplate.sell sample_float_str "BTCUSDT.BINANCE" 50000 1 false
      sample_spot sample_world = inr ("", sample_spot, sample_world).
Proof.
  destruct (buy_sell_rejected_when_not_trading sample_float_str sample_spot
              sample_world "BTCUSDT.BINANCE" 50000 1 false eq_refl)
    as (Hbuy & Hsell & _).
  split; [exact Hbuy | exact Hsell].
Defined.

(** C4 on a spot strategy with [trading] on. *)
Lemma short_cover_rejected_on_spot_witness :
  CtaTemplate.short sample_float_str "BTCUSDT.BINANCE" 50000 1 false
    sample_spot_trading sample_world =
    inr ("", sample_spot_trading,
         mkWorld ["[demo] Short not supported for spot trading"]
                 (clock sample_world) 0)
  ∧ CtaTemplate.cover sample_float_str "BTCUSDT.BINANCE" 50000 1 false
      sample_spot_trading sample_world =
      inr ("", sample_spot_trading,
           mkWorld ["[demo] Cover not supported for spot trading"]
                   (clock sample_world) 0).
Proof.
  exact (short_cover_rejected_on_spot sample_float_str sample_spot_trading
           sample_world "BTCUSDT.BINANCE" 50000 1 false eq_refl).
Defined.

(** C6 on a spot and on a futures strategy, both with [trading] on. *)
Lemma sell_offset_by_strategy_type_witness :
  CtaTemplate.sell sample_float_str "BTCUSDT.BINANCE" 50000 1 false
    sample_spot_trading sample_world =
    inr ("order_<float>", sample_spot_trading,
         mkWorld ["[demo] Send order: BTCUSDT.BINANCE short open @ <float> x<float>"]
                 (clock sample_world) 1)
  ∧ CtaTemplate.sell sample_float_str "BTCUSDT.BINANCE" 50000 1 false
      sample_futures_trading sample_world =
      inr ("order_<float>", sample_futures_trading,
           mkWorld ["[demo] Send order: BTCUSDT.BINANCE short close @ <float> x<float>"]
                   (clock sample_world) 1).
Proof.
  split.
  - exact (proj1 (proj1 (sell_offset_by_strategy_type sample_float_str
                           sample_spot_trading sample_world "BTCUSDT.BINANCE"
                           50000 1 false eq_refl) eq_refl)).
  - exact (proj2 (sell_offset_by_strategy_type sample_float_str
                    sample_futures_trading sample_world "BTCUSDT.BINANCE"
                    50000 1 false eq_refl) eq_refl).
Defined.

(** C8 on a two-bar run: the order is created at time 1 and fills at
    time 2. *)
Lemma trade_after_order_creation_witness :
  Engine.trades sample_run = [sample_fill]
  ∧ ∃ o : Engine.order,
      Engine.book sample_run !! 0%nat = Some o
      ∧ Engine.order_id o = 0%nat
      ∧ (Engine.created_timestamp o < 2)%Z.
Proof.
  split; [reflexivity|].
  apply (trade_after_order_creation sample_config false sample_feed sample_run
           eq_refl sample_fill).
  apply list_elem_of_here.
Defined.

(** * The further properties at sample inputs *)

(** X1 on a sequence of seven calls against a fresh spot strategy. *)
Lemma template_calls_keep_configuration_witness :
  ∃ (self' : CtaTemplate.t) (w' : World),
    perform_all sample_float_repr sample_calls sample_spot sample_world
      = inr (tt, self', w')
    ∧ CtaTemplate.trading self' = false
    ∧ dom (CtaTemplate.positions self') = dom (CtaTemplate.positions sample_spot).
Proof.
  eassert (Hrun : perform_all sample_float_repr sample_calls sample_spot
                    sample_world = inr (tt, _, _)) by reflexivity.
  eexists _, _. split; [exact Hrun|].
  destruct (template_calls_keep_configuration sample_float_repr sample_calls
              sample_spot _ sample_world _ Hrun) as [Hself Hdom].
  split; [reflexivity|exact Hdom].
Defined.

(** X2 on the same calls: the strategy was built with [trading] off. *)
Lemma template_never_starts_trading_witness :
  ∃ (self' : CtaTemplate.t) (w' : World),
    perform_all sample_float_repr sample_calls sample_spot sample_world
      = inr (tt, self', w')
    ∧ CtaTemplate.trading self' = false
    ∧ clock_reads w' = 0.
Proof.
  eassert (Hrun : perform_all sample_float_repr sample_calls sample_spot
                    sample_world = inr (tt, _, _)) by reflexivity.
  eexists _, _. split; [exact Hrun|].
  exact (template_never_starts_trading sample_float_repr sample_calls sample_spot
           _ sample_world _ eq_refl Hrun).
Defined.

(** X4 on a trade of a subscribed symbol followed by one of another. *)
Lemma on_trades_stops_at_unknown_symbol_witness :
  on_trades [sample_trade; sample_other_trade; sample_closing_trade]
    sample_spot sample_world
    = inl (KeyError "ETHUSDT.BINANCE").
Proof.
  apply (on_trades_stops_at_unknown_symbol [sample_trade] [sample_closing_trade]
           sample_other_trade sample_spot sample_world).
  - constructor; [|constructor]. apply elem_of_dom. exists 0%float. reflexivity.
  - apply not_elem_of_dom. reflexivity.
Defined.

Lemma sample_levels_convert : levels_convert 5.
Proof.
  intros i Hi.
  assert (Hcases : (i = 1 ∨ i = 2 ∨ i = 3 ∨ i = 4 ∨ i = 5)%Z) by lia.
  destruct Hcases as [->|[->|[->|[->| ->]]]]; eexists; reflexivity.
Qed.

(** X5 on a tick at 50000 against a trading grid of five levels of 100:
    the level at 49700 and the level at 50300 are on record afterwards. *)
Lemma on_tick_places_grid_witness :
  ∃ (self' : GridStrategy.t) (w' : World),
    GridStrategy.on_tick sample_float_repr sample_tick sample_grid_trading
      sample_world = inr (tt, self', w')
    ∧ is_Some (GridStrategy.buy_orders self' !! sample_float_repr 49700)
    ∧ is_Some (GridStrategy.sell_orders self' !! sample_float_repr 50300)
    ∧ clock_reads w' ≤ 10.
Proof.
  destruct (on_tick_places_grid sample_float_repr sample_tick sample_grid_trading
              sample_world sample_levels_convert eq_refl)
    as (self' & w' & Hrun & _ & _ & _ & _ & Hlevels & Hclock).
  exists self', w'. split; [exact Hrun|].
  destruct (Hlevels 3%Z 3%float) as [Hbuy Hsell]; [simpl; lia|reflexivity|].
  split; [exact Hbuy|]. split; [exact Hsell|exact Hclock].
Defined.

(** X7 on the same tick, delivered twice: the first delivery sends ten
    orders, the second none. *)
Lemma on_tick_twice_witness :
  GridStrategy.on_tick sample_float_repr sample_tick sample_grid_trading
    sample_world = inr (tt, sample_grid_ticked.1, sample_grid_ticked.2)
  ∧ clock_reads sample_grid_ticked.2 = 10
  ∧ GridStrategy.on_tick sample_float_repr sample_tick
      sample_grid_ticked.1 sample_grid_ticked.2
    = inr (tt, sample_grid_ticked.1, sample_grid_ticked.2).
Proof.
  assert (Hrun : GridStrategy.on_tick sample_float_repr sample_tick
                   sample_grid_trading sample_world
                 = inr (tt, sample_grid_ticked.1, sample_grid_ticked.2))
    by (vm_compute; reflexivity).
  split; [exact Hrun|]. split; [vm_compute; reflexivity|].
  exact (on_tick_twice sample_float_repr sample_tick sample_grid_trading
           sample_grid_ticked.1 sample_world sample_grid_ticked.2 Hrun).
Defined.

(** X8 on the same tick, before and after a stop and a start. *)
Lemma grid_not_placed_again_after_restart_witness :
  GridStrategy.on_tick sample_float_repr sample_tick sample_grid_trading
    sample_world = inr (tt, sample_grid_ticked.1, sample_grid_ticked.2)
  ∧ GridStrategy.on_stop sample_grid_ticked.1 sample_grid_ticked.2
    = inr (tt, sample_grid_stopped.1, sample_grid_stopped.2)
  ∧ GridStrategy.on_start sample_grid_stopped.1 sample_grid_stopped.2
    = inr (tt, sample_grid_restarted.1, sample_grid_restarted.2)
  ∧ CtaTemplate.trading (GridStrategy.base sample_grid_restarted.1) = true
  ∧ GridStrategy.on_tick sample_float_repr sample_tick
      sample_grid_restarted.1 sample_grid_restarted.2
    = inr (tt, sample_grid_restarted.1, sample_grid_restarted.2).
Proof.
  assert (Hrun : GridStrategy.on_tick sample_float_repr sample_tick
                   sample_grid_trading sample_world
                 = inr (tt, sample_grid_ticked.1, sample_grid_ticked.2))
    by (vm_compute; reflexivity).
  assert (Hstop : GridStrategy.on_stop sample_grid_ticked.1 sample_grid_ticked.2
                  = inr (tt, sample_grid_stopped.1, sample_grid_stopped.2))
    by (vm_compute; reflexivity).
  assert (Hstart : GridStrategy.on_start sample_grid_stopped.1 sample_grid_stopped.2
                   = inr (tt, sample_grid_restarted.1, sample_grid_restarted.2))
    by (vm_compute; reflexivity).
  split; [exact Hrun|]. split; [exact Hstop|]. split; [exact Hstart|].
  exact (grid_not_placed_again_after_restart sample_float_repr sample_tick
           sample_grid_trading sample_grid_ticked.1 sample_grid_stopped.1
           sample_grid_restarted.1 sample_world sample_grid_ticked.2
           sample_grid_stopped.2 sample_grid_restarted.2 eq_refl Hrun Hstop Hstart).
Defined.

(** X9 on the first bar of a strategy with the default windows. *)
Lemma on_bar_warm_up_witness :
  DoubleMaStrategy.on_bar sample_float_repr sample_float_sum (sample_bar 0 100)
    sample_dma_default sample_world
    = inr (tt, DoubleMaStrategy.set_bars [sample_bar 0 100] sample_dma_default,
           sample_world).
Proof.
  exact (on_bar_warm_up sample_float_repr sample_float_sum (sample_bar 0 100)
           sample_dma_default sample_world eq_refl).
Defined.

(** X11 on the second bar of the strategy with windows 1 and 2. *)
Lemma on_bar_history_bounded_witness :
  DoubleMaStrategy.on_bar sample_float_repr sample_float_sum (sample_bar 1 110)
    sample_dma sample_world
    = inr (tt, sample_dma_after_bar.1, sample_dma_after_bar.2)
  ∧ (Z.of_nat (length (DoubleMaStrategy.bars sample_dma_after_bar.1)) ≤ 4)%Z.
Proof.
  assert (Hrun : DoubleMaStrategy.on_bar sample_float_repr sample_float_sum
                   (sample_bar 1 110) sample_dma sample_world
                 = inr (tt, sample_dma_after_bar.1, sample_dma_after_bar.2))
    by (vm_compute; reflexivity).
  split; [exact Hrun|].
  destruct (on_bar_history_bounded sample_float_repr sample_float_sum
              (sample_bar 1 110) sample_dma
              sample_dma_after_bar.1 sample_world sample_dma_after_bar.2
              ltac:(simpl; lia) ltac:(simpl; lia) Hrun)
    as (_ & Hlen & _).
  exact Hlen.
Defined.

(** X12 on the same bar: the averages cross upwards, the trend turns from
    0 to 1, and one buy is sent. *)
Lemma on_bar_orders_only_on_trend_change_witness :
  DoubleMaStrategy.on_bar sample_float_repr sample_float_sum (sample_bar 1 110)
    sample_dma sample_world
    = inr (tt, sample_dma_after_bar.1, sample_dma_after_bar.2)
  ∧ DoubleMaStrategy.ma_trend sample_dma = 0%Z
  ∧ DoubleMaStrategy.ma_trend sample_dma_after_bar.1 = 1%Z
  ∧ (sample_dma_after_bar.2 = sample_world
     ∨ DoubleMaStrategy.ma_trend sample_dma_after_bar.1
         ≠ DoubleMaStrategy.ma_trend sample_dma
       ∧ clock_reads sample_dma_after_bar.2 = 1).
Proof.
  assert (Hrun : DoubleMaStrategy.on_bar sample_float_repr sample_float_sum
                   (sample_bar 1 110) sample_dma sample_world
                 = inr (tt, sample_dma_after_bar.1, sample_dma_after_bar.2))
    by (vm_compute; reflexivity).
  split; [exact Hrun|]. split; [reflexivity|]. split; [vm_compute; reflexivity|].
  destruct (on_bar_orders_only_on_trend_change sample_float_repr sample_float_sum
              (sample_bar 1 110) sample_dma
              sample_dma_after_bar.1 sample_world sample_dma_after_bar.2 Hrun)
    as [Hsame|(_ & Hflip & Hclock & _)].
  - left. exact Hsame.
  - right. split; [exact Hflip|exact Hclock].
Defined.

(** X13 on the same bar. *)
Lemma on_bar_keeps_account_witness :
  DoubleMaStrategy.on_bar sample_float_repr sample_float_sum (sample_bar 1 110)
    sample_dma sample_world
    = inr (tt, sample_dma_after_bar.1, sample_dma_after_bar.2)
  ∧ CtaTemplate.positions (DoubleMaStrategy.base sample_dma_after_bar.1)
    = CtaTemplate.positions (DoubleMaStrategy.base sample_dma)
  ∧ CtaTemplate.trading (DoubleMaStrategy.base sample_dma_after_bar.1)
    = CtaTemplate.trading (DoubleMaStrategy.base sample_dma).
Proof.
  assert (Hrun : DoubleMaStrategy.on_bar sample_float_repr sample_float_sum
                   (sample_bar 1 110) sample_dma sample_world
                 = inr (tt, sample_dma_after_bar.1, sample_dma_after_bar.2))
    by (vm_compute; reflexivity).
  split; [exact Hrun|].
  destruct (on_bar_keeps_account sample_float_repr sample_float_sum
              (sample_bar 1 110) sample_dma
              sample_dma_after_bar.1 sample_world sample_dma_after_bar.2 Hrun)
    as (Hpos & Hon & _).
  split; [exact Hpos|exact Hon].
Defined.

(** X14 on the same bar: the trend is 1 afterwards, the published one 0. *)
Lemma on_bar_publishes_previous_trend_witness :
  DoubleMaStrategy.on_bar sample_float_repr sample_float_sum (sample_bar 1 110)
    sample_dma sample_world
    = inr (tt, sample_dma_after_bar.1, sample_dma_after_bar.2)
  ∧ DoubleMaStrategy.ma_trend sample_dma_after_bar.1 = 1%Z
  ∧ CtaTemplate.variables (DoubleMaStrategy.base sample_dma_after_bar.1)
      !! "ma_trend"
    = Some (PyInt 0).
Proof.
  assert (Hrun : DoubleMaStrategy.on_bar sample_float_repr sample_float_sum
                   (sample_bar 1 110) sample_dma sample_world
                 = inr (tt, sample_dma_after_bar.1, sample_dma_after_bar.2))
    by (vm_compute; reflexivity).
  split; [exact Hrun|]. split; [vm_compute; reflexivity|].
  destruct (on_bar_publishes_previous_trend sample_float_repr sample_float_sum
              (sample_bar 1 110) sample_dma
              sample_dma_after_bar.1 sample_world sample_dma_after_bar.2
              ltac:(simpl; lia) Hrun) as (Htrend & _).
  exact Htrend.
Defined.

(** X16 on five bars fed to the strategy with slow window 2: the history
    is the last four. *)
Lemma dma_backtest_history_witness :
  run_simplified_backtest (double_ma_class sample_float_repr sample_float_sum)
    sample_bars sample_dma sample_world
    = inr (tt, sample_dma_backtested.1, sample_dma_backtested.2)
  ∧ DoubleMaStrategy.bars sample_dma_backtested.1
    = [sample_bar 2 120; sample_bar 3 90; sample_bar 4 95; sample_bar 5 130].
Proof.
  assert (Hrun : run_simplified_backtest
                   (double_ma_class sample_float_repr sample_float_sum)
                   sample_bars sample_dma sample_world
                 = inr (tt, sample_dma_backtested.1, sample_dma_backtested.2))
    by (vm_compute; reflexivity).
  split; [exact Hrun|].
  exact (dma_backtest_history sample_float_repr sample_float_sum sample_bars
           sample_dma sample_dma_backtested.1 sample_world
           sample_dma_backtested.2 ltac:(simpl; lia) Hrun).
Defined.

(** X17 on the same backtest. *)
Lemma dma_backtest_prints_no_progress_witness :
  run_simplified_backtest (double_ma_class sample_float_repr sample_float_sum)
    sample_bars sample_dma sample_world
  = feed_bars (double_ma_class sample_float_repr sample_float_sum)
      sample_bars sample_dma sample_world.
Proof.
  exact (dma_backtest_prints_no_progress sample_float_repr sample_float_sum
           sample_bars sample_dma sample_world
           ltac:(simpl; lia)).
Defined.

(** X21 on the replay of two trades of the subscribed symbol: one bought,
    one sold, the position back at zero. *)
Lemma on_trades_signed_sum_witness :
  ∃ self' : CtaTemplate.t,
    on_trades [sample_trade; sample_closing_trade] sample_spot sample_world
      = inr (tt, self', sample_world)
    ∧ CtaTemplate.get_pos "BTCUSDT.BINANCE" self' sample_world
      = inr (0%float, self', sample_world).
Proof.
  destruct (on_trades_signed_sum "demo" ["BTCUSDT.BINANCE"] "spot"
              [sample_trade; sample_closing_trade] sample_world)
    as (self' & Hrun & Hpos).
  - repeat constructor.
  - constructor; [by left|]. constructor; [by right|]. constructor.
  - exists self'. split; [exact Hrun|]. exact (Hpos "BTCUSDT.BINANCE").
Defined.
